(** * Pomodoro timer: the session cycle and the countdown hooks

  A shallow embedding of the React hooks of the repository:

  - [Pomodoro]        src/hooks/use-pomodoro.ts   (the session cycle)
  - [Countdown]       src/hooks/use-countdown.ts  (the local, setInterval
                      driven countdown)
  - [TimerCountdown]  the variant of use-countdown.ts that delegates to the
                      Tauri timer service (invoke / listen)
  - [App]             the wiring of App.tsx: the configuration, the
                      completion callback and the session-change effect.

  React is modelled by explicit state passing.  A hook instance is a
  record of its [useState] cells and its [useRef] cells.  A callback of
  the hook is a function on that record that performs the [setState]
  calls of its body; values a callback reads from its closure are the
  values of the render that created it.  After an event handler has
  run React re-renders and runs the effects whose dependencies changed:
  that is the [commit] function of each module.  Events are handled one
  at a time, each followed by its commit.

  JavaScript numbers that hold integers (seconds, minutes, counters)
  are modelled by [Z], exact below 2^53. *)

From Stdlib Require Import ZArith Bool List Lia.
Import ListNotations.
Local Open Scope Z_scope.

(* ================================================================== *)
(** * The session cycle: use-pomodoro.ts *)
(* ================================================================== *)

Module Pomodoro.

(** [type PomodoroSession = "focus" | "break"] *)
Inductive PomodoroSession : Type := focus | break.

Definition session_eqb (a b : PomodoroSession) : bool :=
  match a, b with
  | focus, focus | break, break => true
  | _, _ => false
  end.

(** [interface PomodoroConfig]: the two optional callbacks are kept as
    presence flags; what they do belongs to the caller, what the hook
    does is to call them. *)
Record PomodoroConfig : Type := mkConfig {
  focusMinutes : Z;
  breakMinutes : Z;
  onSessionComplete : bool;
  onCycleComplete : bool
}.

(** [Partial<PomodoroConfig>] *)
Record PartialConfig : Type := mkPartial {
  p_focusMinutes : option Z;
  p_breakMinutes : option Z;
  p_onSessionComplete : option bool;
  p_onCycleComplete : option bool
}.

(** [interface PomodoroState] *)
Record PomodoroState : Type := mkState {
  currentSession : PomodoroSession;
  sessionCount : Z;
  totalCycles : Z;
  isActive : bool
}.

(** The calls the hook makes on the callbacks of its configuration. *)
Inductive Call : Type :=
| OnSessionComplete (session : PomodoroSession)
| OnCycleComplete.

(** The cells of one [usePomodoro] instance. *)
Record Hook : Type := mkHook {
  config : PomodoroConfig;
  state : PomodoroState;
  configRef : PomodoroConfig;
  stateRef : PomodoroState
}.

Definition initialState : PomodoroState :=
  mkState focus 0 0 false.

(** [usePomodoro(initialConfig)] after its first render and effects. *)
Definition usePomodoro (initialConfig : PomodoroConfig) : Hook :=
  mkHook initialConfig initialState initialConfig initialState.

(** [setState(f)] and [setConfig(f)] with an updater function. *)
Definition setState (f : PomodoroState -> PomodoroState) (h : Hook) : Hook :=
  mkHook (config h) (f (state h)) (configRef h) (stateRef h).

Definition setConfig (f : PomodoroConfig -> PomodoroConfig) (h : Hook) : Hook :=
  mkHook (f (config h)) (state h) (configRef h) (stateRef h).

Definition merge {A : Type} (old : A) (new : option A) : A :=
  match new with Some v => v | None => old end.

(** [setConfig((prev) => ({ ...prev, ...newConfig }))] *)
Definition updateConfig (newConfig : PartialConfig) : Hook -> Hook :=
  setConfig (fun prev =>
    mkConfig (merge (focusMinutes prev) (p_focusMinutes newConfig))
             (merge (breakMinutes prev) (p_breakMinutes newConfig))
             (merge (onSessionComplete prev) (p_onSessionComplete newConfig))
             (merge (onCycleComplete prev) (p_onCycleComplete newConfig))).

Definition startSession : Hook -> Hook :=
  setState (fun prev =>
    mkState (currentSession prev) (sessionCount prev) (totalCycles prev) true).

Definition pauseSession : Hook -> Hook :=
  setState (fun prev =>
    mkState (currentSession prev) (sessionCount prev) (totalCycles prev) false).

Definition stopSession : Hook -> Hook :=
  setState (fun prev =>
    mkState (currentSession prev) (sessionCount prev) (totalCycles prev) false).

Definition resetSession : Hook -> Hook :=
  setState (fun _ => mkState focus 0 0 false).

Definition switchToBreak : Hook -> Hook :=
  setState (fun prev =>
    mkState break (sessionCount prev) (totalCycles prev) false).

Definition switchToFocus : Hook -> Hook :=
  setState (fun prev =>
    mkState focus (sessionCount prev + 1) (totalCycles prev) false).

(** The optional calls [configRef.current.onSessionComplete?.(session)]
    and [configRef.current.onCycleComplete?.()]. *)
Definition callSessionComplete (h : Hook) (session : PomodoroSession) : list Call :=
  if onSessionComplete (configRef h) then [OnSessionComplete session] else [].

Definition callCycleComplete (h : Hook) : list Call :=
  if onCycleComplete (configRef h) then [OnCycleComplete] else [].

(** [handleSessionComplete(session)]: the new state is built from
    [stateRef.current], not from the pending state; the result is the
    hook after the [setState] call and the callbacks called, in order. *)
Definition handleSessionComplete (session : PomodoroSession) (h : Hook)
  : Hook * list Call :=
  match session with
  | focus =>
      let currentState := stateRef h in
      (setState (fun _ =>
         mkState break (sessionCount currentState)
                 (totalCycles currentState) false) h,
       callSessionComplete h session)
  | break =>
      let currentState := stateRef h in
      let newState :=
        mkState focus (sessionCount currentState + 1)
                (totalCycles currentState + 1) false in
      (setState (fun _ => newState) h,
       callSessionComplete h session ++ callCycleComplete h)
  end.

(** The two effects [configRef.current = config] and
    [stateRef.current = state], run after the render that follows a
    state change. *)
Definition commit (h : Hook) : Hook :=
  mkHook (config h) (state h) (config h) (state h).

(** Between two events the refs mirror the state. *)
Definition committed (h : Hook) : Prop :=
  stateRef h = state h /\ configRef h = config h.

(** One completion event: the handler, then the commit. *)
Definition completeEvent (session : PomodoroSession) (h : Hook) : Hook * list Call :=
  let (h', calls) := handleSessionComplete session h in (commit h', calls).

(** The same hook with another [currentSession], in the state and in
    its mirror. *)
Definition withCurrentSession (c : PomodoroSession) (h : Hook) : Hook :=
  let change (s : PomodoroState) :=
    mkState c (sessionCount s) (totalCycles s) (isActive s) in
  mkHook (config h) (change (state h)) (configRef h) (change (stateRef h)).

End Pomodoro.

(* ================================================================== *)
(** * The local countdown: src/hooks/use-countdown.ts *)
(* ================================================================== *)

Module Countdown.

(** [interface UseCountdownOptions]; [onComplete] tells whether a
    callback was supplied. *)
Record UseCountdownOptions : Type := mkOptions {
  initialMinutes : Z;
  initialSeconds : Z;
  onComplete : bool
}.


Definition initialTotalSeconds (opts : UseCountdownOptions) : Z :=
  initialMinutes opts * 60 + initialSeconds opts.

Inductive Call : Type := OnComplete.

(** The cells of one [useCountdown] instance.  [intervalRef] is [true]
    when [intervalRef.current !== null], that is when an interval is
    installed and its callback can fire. *)
Record Hook : Type := mkHook {
  totalSeconds : Z;
  isRunning : bool;
  isPaused : bool;
  isEnded : bool;
  intervalRef : bool;
  onCompleteRef : bool
}.

Definition useCountdown (opts : UseCountdownOptions) : Hook :=
  mkHook (initialTotalSeconds opts) false false false false (onComplete opts).

Definition setTotalSeconds (v : Z) (h : Hook) : Hook :=
  mkHook v (isRunning h) (isPaused h) (isEnded h) (intervalRef h) (onCompleteRef h).

Definition setIsRunning (v : bool) (h : Hook) : Hook :=
  mkHook (totalSeconds h) v (isPaused h) (isEnded h) (intervalRef h) (onCompleteRef h).

Definition setIsPaused (v : bool) (h : Hook) : Hook :=
  mkHook (totalSeconds h) (isRunning h) v (isEnded h) (intervalRef h) (onCompleteRef h).

Definition setIsEnded (v : bool) (h : Hook) : Hook :=
  mkHook (totalSeconds h) (isRunning h) (isPaused h) v (intervalRef h) (onCompleteRef h).

Definition setIntervalRef (v : bool) (h : Hook) : Hook :=
  mkHook (totalSeconds h) (isRunning h) (isPaused h) (isEnded h) v (onCompleteRef h).

Definition setOnCompleteRef (v : bool) (h : Hook) : Hook :=
  mkHook (totalSeconds h) (isRunning h) (isPaused h) (isEnded h) (intervalRef h) v.

(** [minutes] and [seconds] of the returned object: [Math.floor] of the
    quotient and the JavaScript remainder. *)
Definition minutes (h : Hook) : Z := totalSeconds h / 60.
Definition seconds (h : Hook) : Z := Z.rem (totalSeconds h) 60.

Definition clearTimer (h : Hook) : Hook := setIntervalRef false h.

(** The optional call [onCompleteRef.current?.()]. *)
Definition callOnComplete (h : Hook) : list Call :=
  if onCompleteRef h then [OnComplete] else [].

(** The callback given to [window.setInterval]: the updater passed to
    [setTotalSeconds], with the state changes and the call it makes. *)
Definition intervalCallback (h : Hook) : Hook * list Call :=
  let prevTotalSeconds := totalSeconds h in
  if prevTotalSeconds >? 0 then
    (setTotalSeconds (prevTotalSeconds - 1) h, [])
  else
    let h1 := clearTimer h in
    let h2 := setIsRunning false h1 in
    let h3 := setIsEnded true h2 in
    (setTotalSeconds 0 h3, callOnComplete h3).

(** One second elapses: the callback fires when an interval is installed. *)
Definition tick (h : Hook) : Hook * list Call :=
  if intervalRef h then intervalCallback h else (h, []).

Definition start (opts : UseCountdownOptions) (h : Hook) : Hook :=
  let h1 :=
    if isEnded h
    then setIsEnded false (setTotalSeconds (initialTotalSeconds opts) h)
    else h in
  setIsPaused false (setIsRunning true h1).

Definition pause (h : Hook) : Hook :=
  setIsRunning false (setIsPaused true h).

Definition stop (h : Hook) : Hook :=
  setIsEnded true (setIsPaused false (setIsRunning false h)).

Definition reset (opts : UseCountdownOptions) (h : Hook) : Hook :=
  setIsEnded false
    (setIsPaused false
       (setIsRunning false (setTotalSeconds (initialTotalSeconds opts) h))).

Definition setTime (minutes seconds : Z) (h : Hook) : Hook :=
  let newTotalSeconds := minutes * 60 + seconds in
  setIsEnded false
    (setIsPaused false (setIsRunning false (setTotalSeconds newTotalSeconds h))).

(** The countdown effect, with dependencies [isRunning] and [isPaused]:
    when one of them changed since the previous render the old interval
    is cleared and a new one is installed iff [isRunning && !isPaused]. *)
Definition countdownEffect (prev next : Hook) : Hook :=
  if Bool.eqb (isRunning prev) (isRunning next)
     && Bool.eqb (isPaused prev) (isPaused next)
  then next
  else
    let h := clearTimer next in
    if isRunning h && negb (isPaused h) then setIntervalRef true h else h.

(** The effects of the render that follows an event: the countdown
    effect and [onCompleteRef.current = onComplete]. *)
Definition commit (opts : UseCountdownOptions) (prev next : Hook) : Hook :=
  setOnCompleteRef (onComplete opts) (countdownEffect prev next).

Inductive Event : Type :=
| Start
| Pause
| Stop
| Reset
| SetTime (minutes seconds : Z)
| Tick.

Definition handle (opts : UseCountdownOptions) (ev : Event) (h : Hook)
  : Hook * list Call :=
  match ev with
  | Start => (start opts h, [])
  | Pause => (pause h, [])
  | Stop => (stop h, [])
  | Reset => (reset opts h, [])
  | SetTime m s => (setTime m s h, [])
  | Tick => tick h
  end.

(** One event: its handler, then the commit of the render it causes.
    For [Tick] this is one firing of the interval that React renders
    before the next firing; firings that pile up within one pass are
    [fireBatch] below. *)
Definition step (opts : UseCountdownOptions) (ev : Event) (h : Hook)
  : Hook * list Call :=
  let (h', calls) := handle opts ev h in (commit opts h h', calls).

(** A sequence of events, each rendered before the next. *)
Fixpoint run (opts : UseCountdownOptions) (evs : list Event) (h : Hook)
  : Hook * list Call :=
  match evs with
  | [] => (h, [])
  | ev :: evs' =>
      let (h1, calls1) := step opts ev h in
      let (h2, calls2) := run opts evs' h1 in
      (h2, calls1 ++ calls2)
  end.

(** Ticks are delivered for as long as an interval is installed, one
    firing per render: each firing is rendered, and its effects run,
    before the next one. *)
Fixpoint runTicks (fuel : nat) (opts : UseCountdownOptions) (h : Hook)
  : Hook * list Call :=
  match fuel with
  | O => (h, [])
  | S fuel' =>
      if intervalRef h then
        let (h1, calls1) := step opts Tick h in
        let (h2, calls2) := runTicks fuel' opts h1 in
        (h2, calls1 ++ calls2)
      else (h, [])
  end.

(** The updaters of [k] firings, run one after the other on the queued
    state.  The body of the interval callback is an updater given to
    [setTotalSeconds]: [clearTimer], the two setters and the call of the
    callback are inside it, so they run when React processes the queue
    and not when the interval fires. *)
Fixpoint queuedFirings (k : nat) (h : Hook) : Hook * list Call :=
  match k with
  | O => (h, [])
  | S k' =>
      let (h1, calls1) := intervalCallback h in
      let (h2, calls2) := queuedFirings k' h1 in
      (h2, calls1 ++ calls2)
  end.

(** The state the completing branch of the updater leaves. *)
Definition endedPending (h : Hook) : Hook :=
  mkHook 0 false (isPaused h) true false (onCompleteRef h).

(** [k] firings of the installed interval within one pass, with no
    render in between (timers advanced inside one [act], as the tests of
    the hook do): every firing queues its updater, React then runs the
    [k] updaters and renders once.  This describes firings queued behind
    an update that changes the state, which is the case when at least
    one second is left at the first firing. *)
Definition fireBatch (opts : UseCountdownOptions) (k : nat) (h : Hook)
  : Hook * list Call :=
  if intervalRef h then
    let (h', calls) := queuedFirings k h in (commit opts h h', calls)
  else (h, []).

(** The phase of the specification, read off the three flags the way
    App.tsx chooses its buttons. *)
Inductive Phase : Type := Idle | Running | Paused | Ended.

Definition phase (h : Hook) : Phase :=
  if isRunning h then Running
  else if isPaused h then Paused
  else if isEnded h then Ended
  else Idle.

(** Between two events: the interval is installed iff the countdown is
    running and not paused, and the ref holds the current callback. *)
Definition committed (opts : UseCountdownOptions) (h : Hook) : Prop :=
  intervalRef h = (isRunning h && negb (isPaused h))
  /\ onCompleteRef h = onComplete opts.




End Countdown.

(* ================================================================== *)
(** * The countdown over the timer service (invoke / listen) *)
(* ================================================================== *)

Module TimerCountdown.

Import Countdown (UseCountdownOptions, mkOptions, initialMinutes,
  initialSeconds, onComplete, initialTotalSeconds, Call, OnComplete,
  Phase, Idle, Running, Paused, Ended).

(** The cells of this [useCountdown] instance. *)
Record Hook : Type := mkHook {
  isRunning : bool;
  isPaused : bool;
  isEnded : bool;
  currentTotalSeconds : Z;
  onCompleteRef : bool
}.

Definition useCountdown (opts : UseCountdownOptions) : Hook :=
  mkHook false false false (initialTotalSeconds opts) (onComplete opts).

(** The commands passed to [invoke]. *)
Inductive Command : Type :=
| start_timer (totalMs : Z)
| resume_timer
| pause_timer
| stop_timer
| get_timer_remaining.

(** What the promise returned by [invoke] settles to: a value
    ([None] for [null], also used for commands without a result) or a
    rejection. *)
Inductive Reply : Type :=
| Resolved (value : option Z)
| Rejected.

Definition Service : Type := Command -> Reply.

(** The body of an async callback: it reads the service, updates the
    cells, may call the completion callback, and either returns a
    value or throws.  What was set before a throw stays set. *)
Definition Async (A : Type) : Type :=
  Service -> Hook -> Hook * list Call * option A.

Definition ret {A : Type} (a : A) : Async A :=
  fun _ h => (h, [], Some a).

Definition bind {A B : Type} (m : Async A) (k : A -> Async B) : Async B :=
  fun svc h =>
    match m svc h with
    | (h1, calls1, Some a) =>
        match k a svc h1 with
        | (h2, calls2, r) => (h2, calls1 ++ calls2, r)
        end
    | (h1, calls1, None) => (h1, calls1, None)
    end.

Notation "x <- m ;; k" := (bind m (fun x => k))
  (at level 61, m at next level, right associativity).
Notation "m ;; k" := (bind m (fun _ => k))
  (at level 61, right associativity).

(** [await invoke(cmd)] *)
Definition invoke (cmd : Command) : Async (option Z) :=
  fun svc h =>
    match svc cmd with
    | Resolved v => (h, [], Some v)
    | Rejected => (h, [], None)
    end.

Definition update (f : Hook -> Hook) : Async unit :=
  fun _ h => (f h, [], Some tt).

Definition setIsRunning (v : bool) : Async unit :=
  update (fun h =>
    mkHook v (isPaused h) (isEnded h) (currentTotalSeconds h) (onCompleteRef h)).

Definition setIsPaused (v : bool) : Async unit :=
  update (fun h =>
    mkHook (isRunning h) v (isEnded h) (currentTotalSeconds h) (onCompleteRef h)).

Definition setIsEnded (v : bool) : Async unit :=
  update (fun h =>
    mkHook (isRunning h) (isPaused h) v (currentTotalSeconds h) (onCompleteRef h)).

Definition setCurrentTotalSeconds (v : Z) : Async unit :=
  update (fun h =>
    mkHook (isRunning h) (isPaused h) (isEnded h) v (onCompleteRef h)).

(** [onCompleteRef.current?.()] *)
Definition callOnComplete : Async unit :=
  fun _ h => (h, if onCompleteRef h then [OnComplete] else [], Some tt).

(** [try { body } catch (error) { console.error(...) }] *)
Definition tryCatch (body : Async unit) (svc : Service) (h : Hook)
  : Hook * list Call :=
  fst (body svc h).

(** [Math.ceil(ms / 1000)] on an integer number of milliseconds. *)
Definition ceilSeconds (ms : Z) : Z := - ((- ms) / 1000).

(** [totalSeconds] of the returned object (both branches of its
    [useMemo] return [currentTotalSeconds]). *)
Definition totalSeconds (h : Hook) : Z := currentTotalSeconds h.

Definition minutes (h : Hook) : Z := totalSeconds h / 60.
Definition seconds (h : Hook) : Z := Z.rem (totalSeconds h) 60.

Definition syncTimerState (svc : Service) (h : Hook) : Hook * list Call :=
  tryCatch
    (remaining <- invoke get_timer_remaining ;;
     match remaining with
     | Some ms =>
         let remainingSeconds := ceilSeconds ms in
         setCurrentTotalSeconds remainingSeconds ;;
         if remainingSeconds >? 0 then ret tt
         else if (remainingSeconds =? 0) && (isRunning h || isPaused h) then
           setIsRunning false ;;
           setIsPaused false ;;
           setIsEnded true ;;
           callOnComplete
         else ret tt
     | None =>
         if isRunning h && negb (isPaused h) then
           setIsRunning false ;;
           setIsEnded true
         else ret tt
     end) svc h.

(** The same body with the closure made explicit: [syncTimerState] is
    re-created when [isRunning] or [isPaused] change, so a call tests the
    flags of the render that created it ([closure]), also when its
    continuation runs on a state [h] that another call has changed in
    the meantime.  [onCompleteRef] is a ref and is read from [h]. *)
Definition syncTimerStateFrom (closure : Hook) (svc : Service) (h : Hook)
  : Hook * list Call :=
  tryCatch
    (remaining <- invoke get_timer_remaining ;;
     match remaining with
     | Some ms =>
         let remainingSeconds := ceilSeconds ms in
         setCurrentTotalSeconds remainingSeconds ;;
         if remainingSeconds >? 0 then ret tt
         else if (remainingSeconds =? 0)
                 && (isRunning closure || isPaused closure) then
           setIsRunning false ;;
           setIsPaused false ;;
           setIsEnded true ;;
           callOnComplete
         else ret tt
     | None =>
         if isRunning closure && negb (isPaused closure) then
           setIsRunning false ;;
           setIsEnded true
         else ret tt
     end) svc h.

(** Two calls made from the same render (the [visibilitychange] and the
    [focus] handlers both call [syncTimerState] when the window comes
    back), both in flight before either continues. *)
Definition syncTwiceInFlight (svc : Service) (h : Hook) : Hook * list Call :=
  let (h1, calls1) := syncTimerStateFrom h svc h in
  let (h2, calls2) := syncTimerStateFrom h svc h1 in
  (h2, calls1 ++ calls2).

(** The listener of [timer://tick]. *)
Definition onTick (remaining_ms : Z) (svc : Service) (h : Hook)
  : Hook * list Call :=
  fst (setCurrentTotalSeconds (ceilSeconds remaining_ms) svc h).

(** The listener of [timer://done]. *)
Definition onDone (svc : Service) (h : Hook) : Hook * list Call :=
  fst ((setCurrentTotalSeconds 0 ;;
        setIsRunning false ;;
        setIsEnded true ;;
        callOnComplete) svc h).

(** The handler of the window [focus] event (the one of
    [visibilitychange] makes the same test when the page is visible). *)
Definition handleFocus (svc : Service) (h : Hook) : Hook * list Call :=
  if isRunning h || isPaused h then syncTimerState svc h else (h, []).

Definition start (opts : UseCountdownOptions) (svc : Service) (h : Hook)
  : Hook * list Call :=
  tryCatch
    ((if isEnded h then
        let totalMs := initialTotalSeconds opts * 1000 in
        setCurrentTotalSeconds (initialTotalSeconds opts) ;;
        setIsEnded false ;;
        invoke (start_timer totalMs)
      else if isPaused h then
        invoke resume_timer
      else
        let totalMs := totalSeconds h * 1000 in
        invoke (start_timer totalMs)) ;;
     setIsRunning true ;;
     setIsPaused false) svc h.

Definition pause (svc : Service) (h : Hook) : Hook * list Call :=
  tryCatch
    (invoke pause_timer ;;
     setIsPaused true ;;
     setIsRunning false) svc h.

Definition stop (svc : Service) (h : Hook) : Hook * list Call :=
  tryCatch
    (invoke stop_timer ;;
     setIsRunning false ;;
     setIsPaused false ;;
     setIsEnded true) svc h.

Definition reset (opts : UseCountdownOptions) (svc : Service) (h : Hook)
  : Hook * list Call :=
  tryCatch
    (invoke stop_timer ;;
     setCurrentTotalSeconds (initialTotalSeconds opts) ;;
     setIsRunning false ;;
     setIsPaused false ;;
     setIsEnded false) svc h.

Definition setTime (minutes seconds : Z) (svc : Service) (h : Hook)
  : Hook * list Call :=
  tryCatch
    (invoke stop_timer ;;
     let newTotalSeconds := minutes * 60 + seconds in
     setCurrentTotalSeconds newTotalSeconds ;;
     setIsRunning false ;;
     setIsPaused false ;;
     setIsEnded false) svc h.

(** The effect [onCompleteRef.current = onComplete]. *)
Definition commit (opts : UseCountdownOptions) (h : Hook) : Hook :=
  mkHook (isRunning h) (isPaused h) (isEnded h) (currentTotalSeconds h)
         (onComplete opts).

Definition phase (h : Hook) : Phase :=
  if isRunning h then Running
  else if isPaused h then Paused
  else if isEnded h then Ended
  else Idle.

(** The operations of the returned object. *)
Inductive Operation : Type :=
| OpStart
| OpPause
| OpStop
| OpReset
| OpSetTime (minutes seconds : Z).

Definition perform (opts : UseCountdownOptions) (op : Operation)
  : Service -> Hook -> Hook * list Call :=
  match op with
  | OpStart => start opts
  | OpPause => pause
  | OpStop => stop
  | OpReset => reset opts
  | OpSetTime m s => setTime m s
  end.

(** The command an operation sends to the service from state [h]. *)
Definition commandOf (opts : UseCountdownOptions) (op : Operation) (h : Hook)
  : Command :=
  match op with
  | OpStart =>
      if isEnded h then start_timer (initialTotalSeconds opts * 1000)
      else if isPaused h then resume_timer
      else start_timer (totalSeconds h * 1000)
  | OpPause => pause_timer
  | OpStop | OpReset | OpSetTime _ _ => stop_timer
  end.

(** A service on which every call succeeds and no timer is reported. *)
Definition serviceOk : Service := fun _ => Resolved None.

(** A service on which every call is rejected. *)
Definition serviceDown : Service := fun _ => Rejected.

End TimerCountdown.

(* ================================================================== *)
(** * The wiring of the two hooks: App.tsx *)
(* ================================================================== *)

Module App.

Definition DEFAULT_FOCUS_MINUTES : Z := 25.
Definition DEFAULT_BREAK_MINUTES : Z := 5.

(** What App.tsx uses of [UseCountdownReturn], the interface both
    countdown hooks implement: the hook itself, [reset], [setTime], and
    the effects the hook runs after a render. *)
Class UseCountdown (C : Type) : Type := {
  cd_use : Countdown.UseCountdownOptions -> C;
  cd_reset : Countdown.UseCountdownOptions -> C -> C;
  cd_setTime : Z -> Z -> C -> C;
  cd_commit : Countdown.UseCountdownOptions -> C -> C -> C
}.

#[export] Instance localCountdown : UseCountdown Countdown.Hook := {
  cd_use := Countdown.useCountdown;
  cd_reset := Countdown.reset;
  cd_setTime := Countdown.setTime;
  cd_commit := Countdown.commit
}.

(** The countdown over the timer service, for a given behaviour of the
    service. *)
Definition serviceCountdown (svc : TimerCountdown.Service)
  : UseCountdown TimerCountdown.Hook := {|
  cd_use := TimerCountdown.useCountdown;
  cd_reset := fun opts h => fst (TimerCountdown.reset opts svc h);
  cd_setTime := fun m s h => fst (TimerCountdown.setTime m s svc h);
  cd_commit := fun opts _ h => TimerCountdown.commit opts h
|}.

(** The state cells of the component, its two hooks, and what its
    [handleSessionComplete] and [handleCycleComplete] callbacks were
    called with (they write to the console). *)
Record App (C : Type) : Type := mkApp {
  focusMinutes : Z;
  breakMinutes : Z;
  pomodoro : Pomodoro.Hook;
  countdown : C;
  console : list Pomodoro.Call
}.

Arguments mkApp {C}.
Arguments focusMinutes {C}.
Arguments breakMinutes {C}.
Arguments pomodoro {C}.
Arguments countdown {C}.
Arguments console {C}.

Section Wiring.

Context {C : Type} {U : UseCountdown C}.

Definition currentSession (app : App C) : Pomodoro.PomodoroSession :=
  Pomodoro.currentSession (Pomodoro.state (pomodoro app)).

(** [currentTime]: the duration of the current kind of session. *)
Definition currentTime (app : App C) : Z * Z :=
  match currentSession app with
  | Pomodoro.focus => (focusMinutes app, 0)
  | Pomodoro.break => (breakMinutes app, 0)
  end.

(** The options App passes to [useCountdown] at a render. *)
Definition countdownOptions (app : App C) : Countdown.UseCountdownOptions :=
  Countdown.mkOptions (fst (currentTime app)) (snd (currentTime app)) true.

(** The first render: the stored durations when there are any, the
    defaults otherwise. *)
Definition init (storedFocus storedBreak : option Z) : App C :=
  let f := match storedFocus with Some v => v | None => DEFAULT_FOCUS_MINUTES end in
  let b := match storedBreak with Some v => v | None => DEFAULT_BREAK_MINUTES end in
  mkApp f b
        (Pomodoro.usePomodoro (Pomodoro.mkConfig f b true true))
        (cd_use (Countdown.mkOptions f 0 true))
        [].

(** [handleSessionCompleteForCountdown], the [onComplete] given to the
    countdown. *)
Definition handleSessionCompleteForCountdown (app : App C) : App C :=
  let (p, calls) :=
    Pomodoro.handleSessionComplete (currentSession app) (pomodoro app) in
  mkApp (focusMinutes app) (breakMinutes app) p (countdown app)
        (console app ++ calls).

Definition deliver (call : Countdown.Call) (app : App C) : App C :=
  match call with
  | Countdown.OnComplete => handleSessionCompleteForCountdown app
  end.

(** The effect that forwards the durations to the session cycle;
    dependencies [focusMinutes] and [breakMinutes]. *)
Definition updateConfigEffect (prev next : App C) : App C :=
  if (focusMinutes prev =? focusMinutes next)
     && (breakMinutes prev =? breakMinutes next)
  then next
  else
    mkApp (focusMinutes next) (breakMinutes next)
          (Pomodoro.updateConfig
             (Pomodoro.mkPartial (Some (focusMinutes next))
                                 (Some (breakMinutes next)) None None)
             (pomodoro next))
          (countdown next) (console next).

(** The effect that resets the countdown; dependencies
    [pomodoro.state.currentSession], [focusMinutes], [breakMinutes]. *)
Definition sessionEffect (prev next : App C) : App C :=
  if Pomodoro.session_eqb (currentSession prev) (currentSession next)
     && (focusMinutes prev =? focusMinutes next)
     && (breakMinutes prev =? breakMinutes next)
  then next
  else
    let cd := cd_reset (countdownOptions next) (countdown next) in
    let cd := cd_setTime (fst (currentTime next)) (snd (currentTime next)) cd in
    mkApp (focusMinutes next) (breakMinutes next) (pomodoro next) cd
          (console next).

(** One render and its effects: those of the two hooks, then the two
    above.  [prev] is the previous render, read for the dependencies. *)
Definition render (prev next : App C) : App C :=
  let hooks :=
    mkApp (focusMinutes next) (breakMinutes next)
          (Pomodoro.commit (pomodoro next))
          (cd_commit (countdownOptions next) (countdown prev) (countdown next))
          (console next) in
  sessionEffect prev (updateConfigEffect prev hooks).

(** After an event: the render it causes, and the render caused by
    what the effects of the first one set. *)
Definition commit (prev next : App C) : App C :=
  render next (render prev next).

Inductive Event : Type :=
| FocusMinutesChange (minutes : Z)
| BreakMinutesChange (minutes : Z)
| FromCountdown
    (f : Countdown.UseCountdownOptions -> C -> C * list Countdown.Call).

Definition handle (ev : Event) (app : App C) : App C :=
  match ev with
  | FocusMinutesChange m =>
      mkApp m (breakMinutes app) (pomodoro app) (countdown app) (console app)
  | BreakMinutesChange m =>
      mkApp (focusMinutes app) m (pomodoro app) (countdown app) (console app)
  | FromCountdown f =>
      let (cd, calls) := f (countdownOptions app) (countdown app) in
      fold_left (fun a c => deliver c a) calls
        (mkApp (focusMinutes app) (breakMinutes app) (pomodoro app) cd
               (console app))
  end.

Definition step (ev : Event) (app : App C) : App C :=
  commit app (handle ev app).

Definition run (evs : list Event) (app : App C) : App C :=
  fold_left (fun a ev => step ev a) evs app.

(** Whether a settings event changes the configuration. *)
Definition changesConfig (ev : Event) (app : App C) : bool :=
  match ev with
  | FocusMinutesChange m => negb (m =? focusMinutes app)
  | BreakMinutesChange m => negb (m =? breakMinutes app)
  | FromCountdown _ => false
  end.

End Wiring.

Arguments Event : clear implicits.

(** The events of the local countdown, as App events. *)
Definition startEvent : Event Countdown.Hook :=
  FromCountdown (fun opts h => (Countdown.start opts h, [])).
Definition pauseEvent : Event Countdown.Hook :=
  FromCountdown (fun _ h => (Countdown.pause h, [])).
Definition tickEvent : Event Countdown.Hook :=
  FromCountdown (fun _ h => Countdown.tick h).

(** The events of the countdown over the timer service. *)
Definition serviceStart (svc : TimerCountdown.Service)
  : Event TimerCountdown.Hook :=
  FromCountdown (fun opts h => TimerCountdown.start opts svc h).
Definition serviceDone (svc : TimerCountdown.Service)
  : Event TimerCountdown.Hook :=
  FromCountdown (fun _ h => TimerCountdown.onDone svc h).

(** Delivering one [timer://done] notification per element of [svcs],
    each under the given behaviour of the service. *)
Fixpoint deliverDone (svcs : list TimerCountdown.Service)
  (app : App TimerCountdown.Hook) : App TimerCountdown.Hook :=
  match svcs with
  | [] => app
  | svc :: rest =>
      deliverDone rest (@step _ (serviceCountdown svc) (serviceDone svc) app)
  end.

(** How many times [onSessionComplete] was called. *)
Fixpoint sessionCompletions (calls : list Pomodoro.Call) : nat :=
  match calls with
  | [] => O
  | Pomodoro.OnSessionComplete _ :: rest => S (sessionCompletions rest)
  | Pomodoro.OnCycleComplete :: rest => sessionCompletions rest
  end.

(** The callbacks App always supplies are in place: the countdown holds
    its [onComplete] and the session cycle its [onSessionComplete]. *)
Definition wired (app : App TimerCountdown.Hook) : Prop :=
  TimerCountdown.onCompleteRef (countdown app) = true
  /\ Pomodoro.onSessionComplete (Pomodoro.config (pomodoro app)) = true
  /\ Pomodoro.onSessionComplete (Pomodoro.configRef (pomodoro app)) = true.

End App.

(* ================================================================== *)
(** * Sequences of operations on the session cycle *)
(* ================================================================== *)

Module PomodoroEvents.

Import Pomodoro.

(** The callbacks [usePomodoro] returns, as events. *)
Inductive Event : Type :=
| StartSession
| PauseSession
| StopSession
| ResetSession
| SwitchToBreak
| SwitchToFocus
| UpdateConfig (newConfig : PartialConfig)
| SessionComplete (session : PomodoroSession).

Definition handle (ev : Event) (h : Hook) : Hook * list Call :=
  match ev with
  | StartSession => (startSession h, [])
  | PauseSession => (pauseSession h, [])
  | StopSession => (stopSession h, [])
  | ResetSession => (resetSession h, [])
  | SwitchToBreak => (switchToBreak h, [])
  | SwitchToFocus => (switchToFocus h, [])
  | UpdateConfig p => (updateConfig p h, [])
  | SessionComplete s => handleSessionComplete s h
  end.

(** One event: the callback, then the effects of the render. *)
Definition step (ev : Event) (h : Hook) : Hook * list Call :=
  let (h', calls) := handle ev h in (commit h', calls).

Fixpoint run (evs : list Event) (h : Hook) : Hook * list Call :=
  match evs with
  | [] => (h, [])
  | ev :: evs' =>
      let (h1, calls1) := step ev h in
      let (h2, calls2) := run evs' h1 in
      (h2, calls1 ++ calls2)
  end.

(** Callbacks called one after the other within one render pass, with no
    commit in between. *)
Fixpoint batch (evs : list Event) (h : Hook) : Hook * list Call :=
  match evs with
  | [] => (h, [])
  | ev :: evs' =>
      let (h1, calls1) := handle ev h in
      let (h2, calls2) := batch evs' h1 in
      (h2, calls1 ++ calls2)
  end.

(** How many break sessions a list of events completes, and how many
    times it switches to focus by hand. *)
Fixpoint breakCompletions (evs : list Event) : Z :=
  match evs with
  | [] => 0
  | SessionComplete break :: evs' => breakCompletions evs' + 1
  | _ :: evs' => breakCompletions evs'
  end.

Fixpoint focusSwitches (evs : list Event) : Z :=
  match evs with
  | [] => 0
  | SwitchToFocus :: evs' => focusSwitches evs' + 1
  | _ :: evs' => focusSwitches evs'
  end.

Fixpoint noReset (evs : list Event) : bool :=
  match evs with
  | [] => true
  | ResetSession :: _ => false
  | _ :: evs' => noReset evs'
  end.

(** No [UpdateConfig] of the list mentions a callback. *)
Fixpoint keepsCallbacks (evs : list Event) : bool :=
  match evs with
  | [] => true
  | UpdateConfig p :: evs' =>
      match p_onSessionComplete p, p_onCycleComplete p with
      | None, None => keepsCallbacks evs'
      | _, _ => false
      end
  | _ :: evs' => keepsCallbacks evs'
  end.

(** The calls a list of events is expected to make when both callbacks
    are supplied. *)
Fixpoint expectedCalls (evs : list Event) : list Call :=
  match evs with
  | [] => []
  | SessionComplete focus :: evs' =>
      OnSessionComplete focus :: expectedCalls evs'
  | SessionComplete break :: evs' =>
      OnSessionComplete break :: OnCycleComplete :: expectedCalls evs'
  | _ :: evs' => expectedCalls evs'
  end.

(** The partial configuration [{ ...p1, ...p2 }]. *)
Definition override (p1 p2 : PartialConfig) : PartialConfig :=
  let pick {A : Type} (a b : option A) : option A :=
    match b with Some _ => b | None => a end in
  mkPartial (pick (p_focusMinutes p1) (p_focusMinutes p2))
            (pick (p_breakMinutes p1) (p_breakMinutes p2))
            (pick (p_onSessionComplete p1) (p_onSessionComplete p2))
            (pick (p_onCycleComplete p1) (p_onCycleComplete p2)).

End PomodoroEvents.

(* ================================================================== *)
(** * Counting over sequences of countdown events *)
(* ================================================================== *)

Module CountdownEvents.

Import Countdown.

(** How many [Start] events a list holds. *)
Fixpoint starts (evs : list Event) : nat :=
  match evs with
  | [] => O
  | Start :: evs' => S (starts evs')
  | _ :: evs' => starts evs'
  end.

(** 1 for a running countdown, 0 otherwise. *)
Definition running01 (h : Hook) : nat := if isRunning h then 1%nat else 0%nat.

(** The state a run ends in, and the call it makes. *)
Definition completed (opts : UseCountdownOptions) : Hook * list Call :=
  (mkHook 0 false false true false (onComplete opts),
   if onComplete opts then [OnComplete] else []).

End CountdownEvents.

(* ================================================================== *)
(** * What the user and the clock do to the App *)
(* ================================================================== *)

Module AppEvents.

Import App.

(** The buttons of App.tsx (start and continue call [countdown.start],
    pause calls [countdown.pause], quit calls [countdown.reset]), the
    two duration inputs of the settings, and the passing of one second. *)
Inductive UserEvent : Type :=
| ClickStart
| ClickPause
| ClickReset
| SecondElapsed
| SetFocusMinutes (minutes : Z)
| SetBreakMinutes (minutes : Z).

Definition resetEvent : Event Countdown.Hook :=
  FromCountdown (fun opts h => (Countdown.reset opts h, [])).

Definition toEvent (u : UserEvent) : Event Countdown.Hook :=
  match u with
  | ClickStart => startEvent
  | ClickPause => pauseEvent
  | ClickReset => resetEvent
  | SecondElapsed => tickEvent
  | SetFocusMinutes m => FocusMinutesChange m
  | SetBreakMinutes m => BreakMinutesChange m
  end.

Definition userRun (us : list UserEvent) (app : App Countdown.Hook)
  : App Countdown.Hook :=
  run (map toEvent us) app.

(** Every duration typed into the settings is at least 0. *)
Fixpoint nonNegativeSettings (us : list UserEvent) : Prop :=
  match us with
  | [] => True
  | SetFocusMinutes m :: us' => 0 <= m /\ nonNegativeSettings us'
  | SetBreakMinutes m :: us' => 0 <= m /\ nonNegativeSettings us'
  | _ :: us' => nonNegativeSettings us'
  end.

(** The same App with another countdown state. *)
Definition withCountdown (cd : Countdown.Hook) (app : App Countdown.Hook)
  : App Countdown.Hook :=
  mkApp (focusMinutes app) (breakMinutes app) (pomodoro app) cd (console app).

(** Between two events: the refs of both hooks are up to date, the
    interval matches the flags, and the session cycle holds its
    callbacks. *)
Definition settled (app : App Countdown.Hook) : Prop :=
  Pomodoro.committed (pomodoro app)
  /\ Countdown.committed (countdownOptions app) (countdown app)
  /\ Pomodoro.onSessionComplete (Pomodoro.config (pomodoro app)) = true
  /\ Pomodoro.onCycleComplete (Pomodoro.config (pomodoro app)) = true.

(** The idle countdown of a given number of minutes. *)
Definition idleAt (minutes : Z) : Countdown.Hook :=
  Countdown.mkHook (minutes * 60 + 0) false false false false true.

(** The App after the current session completed: the session cycle
    has moved on and the countdown waits at the next duration. *)
Definition afterCompletion (app : App Countdown.Hook) : App Countdown.Hook :=
  let p := Pomodoro.commit
             (fst (Pomodoro.handleSessionComplete (currentSession app)
                     (pomodoro app))) in
  let next :=
    match currentSession app with
    | Pomodoro.focus => breakMinutes app
    | Pomodoro.break => focusMinutes app
    end in
  mkApp (focusMinutes app) (breakMinutes app) p (idleAt next)
        (console app
         ++ snd (Pomodoro.handleSessionComplete (currentSession app)
                   (pomodoro app))).

(** What holds between two user events when no negative duration was
    entered: the App is settled, the session cycle knows the durations
    of the settings, and the remaining time lies between 0 and the
    duration of the current kind of session. *)
Definition inBounds (app : App Countdown.Hook) : Prop :=
  settled app
  /\ 0 <= focusMinutes app
  /\ 0 <= breakMinutes app
  /\ Pomodoro.focusMinutes (Pomodoro.config (pomodoro app)) = focusMinutes app
  /\ Pomodoro.breakMinutes (Pomodoro.config (pomodoro app)) = breakMinutes app
  /\ 0 <= Countdown.totalSeconds (countdown app) <= fst (currentTime app) * 60.

End AppEvents.

(* ================================================================== *)
(** * The session cycle: what a completion does *)
(* ================================================================== *)

Section PomodoroFacts.

Import Pomodoro.

Lemma usePomodoro_committed (cfg : PomodoroConfig) : committed (usePomodoro cfg).
Proof. split; reflexivity. Qed.

Lemma pomodoro_commit_committed (h : Hook) : committed (commit h).
Proof. split; reflexivity. Qed.

Lemma completeEvent_committed (session : PomodoroSession) (h : Hook) :
  committed (fst (completeEvent session h)).
Proof.
  unfold completeEvent.
  destruct (handleSessionComplete session h) as [h' calls].
  apply pomodoro_commit_committed.
Qed.

(** The state a completion produces, in terms of the mirror it reads. *)
Lemma handleSessionComplete_state (session : PomodoroSession) (h : Hook) :
  state (fst (handleSessionComplete session h)) =
  match session with
  | focus => mkState break (sessionCount (stateRef h)) (totalCycles (stateRef h)) false
  | break => mkState focus (sessionCount (stateRef h) + 1)
                     (totalCycles (stateRef h) + 1) false
  end.
Proof. destruct session; reflexivity. Qed.

Lemma completeEvent_state (session : PomodoroSession) (h : Hook) :
  state (fst (completeEvent session h)) =
  state (fst (handleSessionComplete session h)).
Proof.
  unfold completeEvent.
  destruct (handleSessionComplete session h) as [h' calls]; reflexivity.
Qed.

(** C1: from every state of the session cycle (its mirror up to date),
    [handleSessionComplete focus] moves to [break], clears [isActive] and
    keeps both counters; [handleSessionComplete break] moves to [focus],
    clears [isActive] and adds exactly 1 to [sessionCount] and to
    [totalCycles]. *)
Theorem handleSessionComplete_transitions (h : Hook) (Hc : committed h) :
  let f := state (fst (handleSessionComplete focus h)) in
  let b := state (fst (handleSessionComplete break h)) in
  (currentSession f = break /\ isActive f = false
   /\ sessionCount f = sessionCount (state h)
   /\ totalCycles f = totalCycles (state h))
  /\
  (currentSession b = focus /\ isActive b = false
   /\ sessionCount b = sessionCount (state h) + 1
   /\ totalCycles b = totalCycles (state h) + 1).
Proof.
  destruct Hc as [Hs _].
  cbv zeta. rewrite !handleSessionComplete_state, Hs.
  repeat split.
Qed.

Lemma handleSessionComplete_transitions_witness :
  let h := usePomodoro (mkConfig 25 5 true true) in
  committed h
  /\ (let f := state (fst (handleSessionComplete focus h)) in
      let b := state (fst (handleSessionComplete break h)) in
      (currentSession f = break /\ isActive f = false
       /\ sessionCount f = sessionCount (state h)
       /\ totalCycles f = totalCycles (state h))
      /\
      (currentSession b = focus /\ isActive b = false
       /\ sessionCount b = sessionCount (state h) + 1
       /\ totalCycles b = totalCycles (state h) + 1)).
Proof.
  split.
  - split; reflexivity.
  - apply (handleSessionComplete_transitions
             (usePomodoro (mkConfig 25 5 true true))).
    split; reflexivity.
Defined.

Lemma withCurrentSession_committed (c : PomodoroSession) (h : Hook) :
  committed h -> committed (withCurrentSession c h).
Proof.
  intros [Hs Hc]. split; simpl; [rewrite Hs | exact Hc]; reflexivity.
Qed.

(** C10, as the code has it: [handleSessionComplete] decides on its
    argument alone and does not look at [currentSession]: the result is
    the same whatever the current session is; with [break] it moves to
    [focus] and adds 1 to both counters also when the current session is
    [focus] already, so two completions with [break], each followed by
    its re-render, add 2 to both counters. *)
Theorem handleSessionComplete_ignores_currentSession
  (h : Hook) (Hc : committed h) :
  (forall session c,
      state (fst (handleSessionComplete session (withCurrentSession c h))) =
      state (fst (handleSessionComplete session h))
      /\ snd (handleSessionComplete session (withCurrentSession c h)) =
         snd (handleSessionComplete session h))
  /\
  (let once := state (fst (handleSessionComplete break (withCurrentSession focus h))) in
   currentSession once = focus
   /\ sessionCount once = sessionCount (state h) + 1
   /\ totalCycles once = totalCycles (state h) + 1)
  /\
  (let twice :=
     state (fst (completeEvent break (fst (completeEvent break h)))) in
   currentSession twice = focus
   /\ sessionCount twice = sessionCount (state h) + 2
   /\ totalCycles twice = totalCycles (state h) + 2).
Proof.
  destruct Hc as [Hs Hcfg].
  split; [|split].
  - intros session c. rewrite !handleSessionComplete_state.
    destruct session; split; reflexivity.
  - cbv zeta. rewrite handleSessionComplete_state. simpl.
    rewrite Hs. repeat split.
  - cbv zeta. rewrite completeEvent_state, handleSessionComplete_state.
    destruct (completeEvent_committed break h) as [Hs' _].
    rewrite Hs', completeEvent_state, handleSessionComplete_state, Hs.
    simpl. repeat split; lia.
Qed.

Lemma handleSessionComplete_ignores_currentSession_witness :
  let h := usePomodoro (mkConfig 25 5 true true) in
  committed h
  /\ currentSession (state h) = focus
  /\ (let twice :=
        state (fst (completeEvent break (fst (completeEvent break h)))) in
      currentSession twice = focus
      /\ sessionCount twice = sessionCount (state h) + 2
      /\ totalCycles twice = totalCycles (state h) + 2).
Proof.
  split; [split; reflexivity|].
  split; [reflexivity|].
  exact (proj2 (proj2 (handleSessionComplete_ignores_currentSession
                         (usePomodoro (mkConfig 25 5 true true))
                         (conj eq_refl eq_refl)))).
Defined.

(** Within one render the mirror is not refreshed: a second call made
    before the re-render starts from the same snapshot. *)
Lemma handleSessionComplete_same_render (h : Hook) :
  state (fst (handleSessionComplete break (fst (handleSessionComplete break h)))) =
  state (fst (handleSessionComplete break h)).
Proof. reflexivity. Qed.

End PomodoroFacts.

(* ================================================================== *)
(** * The local countdown *)
(* ================================================================== *)

Section CountdownFacts.

Import Countdown.

Lemma phase_Idle (h : Hook) :
  phase h = Idle <->
  isRunning h = false /\ isPaused h = false /\ isEnded h = false.
Proof.
  unfold phase. destruct (isRunning h), (isPaused h), (isEnded h);
    split; try discriminate; try tauto; intros [? [? ?]]; discriminate.
Qed.

Lemma countdown_commit_keeps (opts : UseCountdownOptions) (prev next : Hook) :
  totalSeconds (commit opts prev next) = totalSeconds next
  /\ isRunning (commit opts prev next) = isRunning next
  /\ isPaused (commit opts prev next) = isPaused next
  /\ isEnded (commit opts prev next) = isEnded next.
Proof.
  unfold commit, countdownEffect.
  destruct (Bool.eqb (isRunning prev) (isRunning next)
            && Bool.eqb (isPaused prev) (isPaused next)).
  - repeat split.
  - simpl. destruct (isRunning next && negb (isPaused next)); repeat split.
Qed.

Lemma countdown_phase_commit (opts : UseCountdownOptions) (prev next : Hook) :
  phase (commit opts prev next) = phase next.
Proof.
  destruct (countdown_commit_keeps opts prev next) as [_ [Hr [Hp He]]].
  unfold phase. rewrite Hr, Hp, He. reflexivity.
Qed.

(** The commit re-establishes the relation between the interval and the
    flags, and refreshes the callback. *)
Lemma countdown_commit_committed (opts : UseCountdownOptions) (prev next : Hook) :
  committed opts prev ->
  intervalRef next = intervalRef prev \/ intervalRef next = false ->
  (intervalRef next = false ->
   intervalRef prev = true -> isRunning next = false) ->
  committed opts (commit opts prev next).
Proof.
  intros [Hi Ho] Hn Hcl. unfold committed, commit, countdownEffect.
  destruct prev as [t r p e i o], next as [t' r' p' e' i' o']; simpl in *.
  subst i. split; [|reflexivity].
  destruct r, p, r', p'; simpl in *;
    try reflexivity; destruct Hn as [Hn|Hn]; subst; try reflexivity;
    try (specialize (Hcl eq_refl eq_refl)); try discriminate.
Qed.

Lemma countdown_step_committed (opts : UseCountdownOptions) (ev : Event) (h : Hook) :
  committed opts h -> committed opts (fst (step opts ev h)).
Proof.
  intros Hc. unfold step.
  destruct (handle opts ev h) as [h' calls] eqn:Hh. simpl.
  apply countdown_commit_committed; [exact Hc | |].
  - destruct ev; simpl in Hh; inversion Hh; subst; clear Hh;
      try (left; unfold start, pause, stop, reset, setTime;
           destruct (isEnded h); reflexivity).
    unfold tick in H0. destruct (intervalRef h) eqn:Hi.
    + unfold intervalCallback in H0.
      destruct (totalSeconds h >? 0); inversion H0; subst; simpl;
        [left; exact Hi | right; reflexivity].
    + inversion H0; subst. left; exact Hi.
  - intros Hf Ht.
    destruct ev; simpl in Hh; inversion Hh; subst; clear Hh;
      try (unfold start, pause, stop, reset, setTime in Hf;
           destruct (isEnded h); simpl in Hf; congruence).
    unfold tick in H0. rewrite Ht in H0. unfold intervalCallback in H0.
    destruct (totalSeconds h >? 0); inversion H0; subst; simpl in *;
      [congruence | reflexivity].
Qed.

Lemma useCountdown_committed (opts : UseCountdownOptions) :
  committed opts (useCountdown opts).
Proof. split; reflexivity. Qed.

Lemma countdown_run_nil (opts : UseCountdownOptions) (h : Hook) :
  run opts [] h = (h, []).
Proof. reflexivity. Qed.

Lemma countdown_run_cons (opts : UseCountdownOptions) (ev : Event) (evs : list Event)
  (h : Hook) :
  fst (run opts (ev :: evs) h) = fst (run opts evs (fst (step opts ev h))).
Proof.
  simpl. destruct (step opts ev h) as [h1 c1]. simpl.
  destruct (run opts evs h1) as [h2 c2]. reflexivity.
Qed.

(** An invariant of single steps holds after every sequence of events. *)
Lemma countdown_run_invariant (opts : UseCountdownOptions) (P : Hook -> Prop) :
  (forall ev h, P h -> P (fst (step opts ev h))) ->
  forall evs h, P h -> P (fst (run opts evs h)).
Proof.
  intros Hstep evs. induction evs as [|ev evs IH]; intros h Hh.
  - exact Hh.
  - rewrite countdown_run_cons. apply IH, Hstep, Hh.
Qed.

Lemma countdown_run_committed (opts : UseCountdownOptions) (evs : list Event) (h : Hook) :
  committed opts h -> committed opts (fst (run opts evs h)).
Proof.
  apply countdown_run_invariant. intros ev h'. apply countdown_step_committed.
Qed.

(** C4: for minutes >= 0 and seconds in [0,59], [setTime minutes seconds]
    from any state leaves [minutes*60 + seconds] as the remaining time
    and the phase [Idle], right after the call and after the render that
    follows it. *)
Theorem setTime_remaining_and_idle
  (opts : UseCountdownOptions) (h : Hook) (m s : Z)
  (Hm : 0 <= m) (Hs : 0 <= s <= 59) :
  let h1 := setTime m s h in
  let h2 := fst (step opts (SetTime m s) h) in
  (totalSeconds h1 = m * 60 + s /\ phase h1 = Idle)
  /\ (totalSeconds h2 = m * 60 + s /\ phase h2 = Idle)
  /\ 0 <= totalSeconds h2
  /\ minutes h2 = m /\ seconds h2 = s.
Proof.
  cbv zeta. unfold step. simpl handle. cbv iota beta. simpl fst.
  destruct (countdown_commit_keeps opts h (setTime m s h)) as [Ht _].
  rewrite countdown_phase_commit.
  unfold minutes, seconds. rewrite Ht. simpl.
  repeat split; try reflexivity; try lia.
  - symmetry. apply (Z.div_unique_pos _ _ m s); lia.
  - rewrite Z.rem_mod_nonneg by lia.
    symmetry. apply (Z.mod_unique_pos _ _ m s); lia.
Qed.

Lemma setTime_remaining_and_idle_witness :
  let opts := mkOptions 5 0 false in
  let h2 := fst (step opts (SetTime 2 30) (useCountdown opts)) in
  totalSeconds h2 = 150 /\ phase h2 = Idle.
Proof.
  cbv zeta.
  destruct (setTime_remaining_and_idle (mkOptions 5 0 false)
              (useCountdown (mkOptions 5 0 false)) 2 30
              ltac:(lia) ltac:(lia)) as [_ [H _]].
  exact H.
Defined.

Lemma step_flags (opts : UseCountdownOptions) (ev : Event) (h : Hook) :
  totalSeconds (fst (step opts ev h)) = totalSeconds (fst (handle opts ev h))
  /\ isRunning (fst (step opts ev h)) = isRunning (fst (handle opts ev h))
  /\ isPaused (fst (step opts ev h)) = isPaused (fst (handle opts ev h))
  /\ isEnded (fst (step opts ev h)) = isEnded (fst (handle opts ev h)).
Proof.
  unfold step.
  destruct (handle opts ev h) as [h' calls]. cbn [fst].
  apply (countdown_commit_keeps opts h h').
Qed.

Lemma step_exclusive (opts : UseCountdownOptions) (ev : Event) (h : Hook) :
  isRunning h && isPaused h = false ->
  isRunning (fst (step opts ev h)) && isPaused (fst (step opts ev h)) = false.
Proof.
  intros H.
  destruct (step_flags opts ev h) as [_ [Hr [Hp _]]]. rewrite Hr, Hp.
  destruct ev; simpl;
    try (unfold start, pause, stop, reset, setTime;
         destruct (isEnded h); reflexivity).
  unfold tick, intervalCallback.
  destruct (intervalRef h); [|exact H].
  destruct (totalSeconds h >? 0); simpl; [exact H | reflexivity].
Qed.

(** C9: in every state reached from the initial one by start, pause,
    stop, reset, setTime and tick events, [isRunning] and [isPaused] are
    never both true; [start] sets [isRunning] and clears [isPaused],
    [pause] sets [isPaused] and clears [isRunning]. *)
Theorem isRunning_isPaused_exclusive
  (opts : UseCountdownOptions) (evs : list Event) :
  let h := fst (run opts evs (useCountdown opts)) in
  ~ (isRunning h = true /\ isPaused h = true)
  /\ (forall h0, isRunning (start opts h0) = true
                 /\ isPaused (start opts h0) = false)
  /\ (forall h0, isPaused (pause h0) = true /\ isRunning (pause h0) = false).
Proof.
  cbv zeta. split; [|split].
  - assert (H : isRunning (fst (run opts evs (useCountdown opts)))
                && isPaused (fst (run opts evs (useCountdown opts))) = false).
    { apply (countdown_run_invariant opts
               (fun h => isRunning h && isPaused h = false)).
      - intros ev h. apply step_exclusive.
      - reflexivity. }
    intros [Hr Hp]. rewrite Hr, Hp in H. discriminate.
  - intros h0. unfold start. destruct (isEnded h0); split; reflexivity.
  - intros h0. split; reflexivity.
Qed.

(** C5, as the code has it: [setTime] sets the remaining time only.
    The duration [reset] restores, and [start] restores from the ended
    state, is the one of the options of the hook,
    [initialMinutes*60 + initialSeconds], whatever was given to an
    earlier [setTime] and whatever happened in between. *)
Theorem reset_restores_options_duration
  (opts : UseCountdownOptions) (h : Hook) (m s : Z) (evs : list Event) :
  let h' := fst (run opts evs (fst (step opts (SetTime m s) h))) in
  totalSeconds (fst (step opts Reset h')) = initialTotalSeconds opts
  /\ totalSeconds (fst (step opts Start (fst (step opts Stop h')))) =
     initialTotalSeconds opts
  /\ (isEnded h' = true ->
      totalSeconds (fst (step opts Start h')) = initialTotalSeconds opts).
Proof.
  cbv zeta.
  set (h' := fst (run opts evs (fst (step opts (SetTime m s) h)))).
  split; [|split].
  - destruct (step_flags opts Reset h') as [Ht _]. rewrite Ht. reflexivity.
  - destruct (step_flags opts Start (fst (step opts Stop h'))) as [Ht _].
    rewrite Ht. cbn [handle fst]. unfold start.
    destruct (step_flags opts Stop h') as [_ [_ [_ He]]]. rewrite He.
    reflexivity.
  - intros He.
    destruct (step_flags opts Start h') as [Ht _]. rewrite Ht.
    cbn [handle fst]. unfold start. rewrite He. reflexivity.
Qed.

Lemma reset_restores_options_duration_witness :
  let opts := mkOptions 5 0 false in
  let h' := fst (run opts [Stop] (fst (step opts (SetTime 2 30) (useCountdown opts)))) in
  isEnded h' = true
  /\ totalSeconds (fst (step opts Start h')) = initialTotalSeconds opts.
Proof.
  cbv zeta. split; [reflexivity|].
  apply (reset_restores_options_duration (mkOptions 5 0 false)
           (useCountdown (mkOptions 5 0 false)) 2 30 [Stop]).
  reflexivity.
Defined.

(** C5 as worded fails: with options 5:00, after [setTime 2 30] a
    [reset], and a [start] from the ended state, give 300 seconds and not
    the 150 seconds supplied to [setTime]. *)
Lemma reset_after_setTime_counterexample :
  let opts := mkOptions 5 0 false in
  let h := fst (step opts (SetTime 2 30) (useCountdown opts)) in
  totalSeconds h = 2 * 60 + 30
  /\ totalSeconds (fst (step opts Reset h)) = 300
  /\ totalSeconds (fst (step opts Reset h)) <> 2 * 60 + 30
  /\ phase (fst (step opts Stop h)) = Ended
  /\ totalSeconds (fst (run opts [Stop; Start] h)) = 300
  /\ totalSeconds (fst (run opts [Stop; Start] h)) <> 2 * 60 + 30.
Proof.
  cbv zeta. repeat split; try reflexivity; intros H; discriminate H.
Qed.

(** A tick of a running countdown with time left takes one second off. *)
Lemma step_tick_positive (opts : UseCountdownOptions) (h : Hook) :
  committed opts h -> isRunning h = true -> isPaused h = false ->
  0 < totalSeconds h ->
  step opts Tick h = (setTotalSeconds (totalSeconds h - 1) h, []).
Proof.
  intros [Hi Ho] Hr Hp Ht.
  destruct h as [t r p e i o]; simpl in *; subst.
  unfold step, handle, tick, intervalCallback; simpl.
  destruct (Z.gtb_spec t 0) as [_|Hle]; [reflexivity | lia].
Qed.

(** A tick of a running countdown with no time left ends the run: the
    interval is cleared and the completion callback is called. *)
Lemma step_tick_zero (opts : UseCountdownOptions) (h : Hook) :
  committed opts h -> isRunning h = true -> isPaused h = false ->
  totalSeconds h = 0 ->
  step opts Tick h =
  (mkHook 0 false false true false (onComplete opts),
   if onComplete opts then [OnComplete] else []).
Proof.
  intros [Hi Ho] Hr Hp Ht.
  destruct h as [t r p e i o]; simpl in *; subst.
  reflexivity.
Qed.

Lemma runTicks_stopped (fuel : nat) (opts : UseCountdownOptions) (h : Hook) :
  intervalRef h = false -> runTicks fuel opts h = (h, []).
Proof. intros Hi. destruct fuel; simpl; [|rewrite Hi]; reflexivity. Qed.

(** A running countdown with [n] seconds left completes at the tick
    after the [n] that bring it to zero, with one call of the callback;
    more fuel changes nothing. *)
Lemma runTicks_completes (n : nat) :
  forall (opts : UseCountdownOptions) (h : Hook) (extra : nat),
    committed opts h -> isRunning h = true -> isPaused h = false ->
    totalSeconds h = Z.of_nat n ->
    runTicks (S n + extra) opts h =
    (mkHook 0 false false true false (onComplete opts),
     if onComplete opts then [OnComplete] else []).
Proof.
  induction n as [|n IH]; intros opts h extra Hc Hr Hp Ht.
  - assert (Hi : intervalRef h = true).
    { destruct Hc as [Hi _]. rewrite Hi, Hr, Hp. reflexivity. }
    cbn [Nat.add runTicks]. rewrite Hi.
    rewrite (step_tick_zero opts h Hc Hr Hp Ht).
    rewrite runTicks_stopped by reflexivity.
    rewrite app_nil_r. reflexivity.
  - assert (Hi : intervalRef h = true).
    { destruct Hc as [Hi _]. rewrite Hi, Hr, Hp. reflexivity. }
    change (S (S n) + extra)%nat with (S (S n + extra)).
    cbn [runTicks]. rewrite Hi.
    rewrite (step_tick_positive opts h Hc Hr Hp) by lia.
    rewrite IH.
    + reflexivity.
    + destruct Hc as [Hi' Ho]. split; [exact Hi' | exact Ho].
    + exact Hr.
    + exact Hp.
    + simpl. lia.
Qed.








End CountdownFacts.

(* ================================================================== *)
(** * The countdown over the timer service *)
(* ================================================================== *)

Section TimerCountdownFacts.

Import Countdown (UseCountdownOptions, mkOptions, initialTotalSeconds,
  Idle, Running, Paused, Ended).
Import TimerCountdown.

(** X17: when the service rejects the call of an operation, the operation
    leaves the state as it was and calls nothing, except [start] from
    the ended state. *)
Lemma perform_rejected_retains
  (opts : UseCountdownOptions) (op : Operation) (svc : Service) (h : Hook) :
  svc (commandOf opts op h) = Rejected ->
  (op = OpStart -> isEnded h = false) ->
  perform opts op svc h = (h, []).
Proof.
  intros Hrej Hne. destruct op; simpl in *.
  - specialize (Hne eq_refl). unfold start, tryCatch, bind, invoke.
    rewrite Hne in *. destruct (isPaused h); rewrite Hrej; reflexivity.
  - unfold pause, tryCatch, bind, invoke. rewrite Hrej. reflexivity.
  - unfold stop, tryCatch, bind, invoke. rewrite Hrej. reflexivity.
  - unfold reset, tryCatch, bind, invoke. rewrite Hrej. reflexivity.
  - unfold setTime, tryCatch, bind, invoke. rewrite Hrej. reflexivity.
Qed.

(** [start] from the ended state sets the remaining time and clears
    [isEnded] before it calls the service: a rejection leaves that done. *)
Lemma start_ended_rejected
  (opts : UseCountdownOptions) (svc : Service) (h : Hook) :
  isEnded h = true ->
  svc (start_timer (initialTotalSeconds opts * 1000)) = Rejected ->
  start opts svc h =
  (mkHook (isRunning h) (isPaused h) false (initialTotalSeconds opts)
          (onCompleteRef h), []).
Proof.
  intros He Hrej. unfold start, tryCatch, bind, invoke.
  rewrite He. simpl. rewrite Hrej. reflexivity.
Qed.

(** C7 fails on [start] after a run has ended: with options 25:00, a
    countdown that was started and received [timer://done] is [Ended]
    with 0 seconds left; [start] with the service rejecting
    [start_timer] leaves it [Idle] with 1500 seconds left, where the
    claim has phase and remaining time unchanged. *)
Theorem start_after_end_rejected_changes_state :
  let opts := mkOptions 25 0 true in
  let ended :=
    commit opts
      (fst (onDone serviceOk
              (commit opts (fst (start opts serviceOk (useCountdown opts)))))) in
  let after := fst (start opts serviceDown ended) in
  (phase ended = Ended /\ totalSeconds ended = 0)
  /\ serviceDown (commandOf opts OpStart ended) = Rejected
  /\ (phase after = Idle /\ totalSeconds after = 1500)
  /\ phase after <> phase ended
  /\ totalSeconds after <> totalSeconds ended.
Proof.
  cbv zeta. repeat split; try reflexivity; intros H; discriminate H.
Qed.

(** The only thing that keeps the resynchronisation from completing a
    run again is the flags: after [timer://done] on a countdown that
    was not paused, the focus handler does not consult the service. *)
Lemma handleFocus_after_done (svc svc' : Service) (h : Hook) :
  isPaused h = false ->
  handleFocus svc' (fst (onDone svc h)) = (fst (onDone svc h), []).
Proof.
  intros Hp. unfold handleFocus, onDone. simpl. rewrite Hp. reflexivity.
Qed.

End TimerCountdownFacts.

(* ================================================================== *)
(** * The wiring in App.tsx *)
(* ================================================================== *)

Section AppFacts.

Import App.

Lemma session_eqb_refl (c : Pomodoro.PomodoroSession) :
  Pomodoro.session_eqb c c = true.
Proof. destruct c; reflexivity. Qed.

(** The session effect, when it runs, leaves the countdown idle at the
    duration of the current kind of session. *)
Lemma sessionEffect_runs (prev next : App Countdown.Hook) :
  Pomodoro.session_eqb (currentSession prev) (currentSession next)
  && (focusMinutes prev =? focusMinutes next)
  && (breakMinutes prev =? breakMinutes next) = false ->
  let cd := countdown (sessionEffect prev next) in
  Countdown.totalSeconds cd = fst (currentTime next) * 60 + snd (currentTime next)
  /\ Countdown.isRunning cd = false
  /\ Countdown.isPaused cd = false
  /\ Countdown.isEnded cd = false.
Proof.
  intros H. unfold sessionEffect. rewrite H. simpl. repeat split.
Qed.

(** A render whose dependencies did not change keeps the time and the
    flags of the countdown. *)
Lemma render_same_deps (prev next : App Countdown.Hook) :
  currentSession prev = currentSession next ->
  focusMinutes prev = focusMinutes next ->
  breakMinutes prev = breakMinutes next ->
  let cd := countdown (render prev next) in
  Countdown.totalSeconds cd = Countdown.totalSeconds (countdown next)
  /\ Countdown.isRunning cd = Countdown.isRunning (countdown next)
  /\ Countdown.isPaused cd = Countdown.isPaused (countdown next)
  /\ Countdown.isEnded cd = Countdown.isEnded (countdown next).
Proof.
  intros Hs Hf Hb. unfold render, sessionEffect, updateConfigEffect.
  cbn [focusMinutes breakMinutes].
  rewrite Hf, Hb, !Z.eqb_refl. cbn [andb].
  unfold currentSession in *. cbn [pomodoro Pomodoro.commit Pomodoro.state].
  rewrite Hs, session_eqb_refl. cbn [andb countdown cd_commit localCountdown].
  apply countdown_commit_keeps.
Qed.

Lemma updateConfigEffect_frame (prev next : App Countdown.Hook) :
  currentSession (updateConfigEffect prev next) = currentSession next
  /\ focusMinutes (updateConfigEffect prev next) = focusMinutes next
  /\ breakMinutes (updateConfigEffect prev next) = breakMinutes next
  /\ countdown (updateConfigEffect prev next) = countdown next.
Proof.
  unfold updateConfigEffect.
  destruct ((focusMinutes prev =? focusMinutes next)
            && (breakMinutes prev =? breakMinutes next)); repeat split.
Qed.

Lemma sessionEffect_frame (prev next : App Countdown.Hook) :
  currentSession (sessionEffect prev next) = currentSession next
  /\ focusMinutes (sessionEffect prev next) = focusMinutes next
  /\ breakMinutes (sessionEffect prev next) = breakMinutes next.
Proof.
  unfold sessionEffect.
  destruct (Pomodoro.session_eqb (currentSession prev) (currentSession next)
            && (focusMinutes prev =? focusMinutes next)
            && (breakMinutes prev =? breakMinutes next)); repeat split.
Qed.

Lemma render_frame (prev next : App Countdown.Hook) :
  currentSession (render prev next) = currentSession next
  /\ focusMinutes (render prev next) = focusMinutes next
  /\ breakMinutes (render prev next) = breakMinutes next.
Proof.
  unfold render.
  destruct (sessionEffect_frame prev
              (updateConfigEffect prev
                 (mkApp (focusMinutes next) (breakMinutes next)
                    (Pomodoro.commit (pomodoro next))
                    (cd_commit (countdownOptions next) (countdown prev)
                       (countdown next)) (console next))))
    as [Hs [Hf Hb]].
  rewrite Hs, Hf, Hb.
  destruct (updateConfigEffect_frame prev
              (mkApp (focusMinutes next) (breakMinutes next)
                 (Pomodoro.commit (pomodoro next))
                 (cd_commit (countdownOptions next) (countdown prev)
                    (countdown next)) (console next)))
    as [Hs' [Hf' [Hb' _]]].
  rewrite Hs', Hf', Hb'. repeat split.
Qed.

Lemma currentTime_frame (a b : App Countdown.Hook) :
  currentSession a = currentSession b ->
  focusMinutes a = focusMinutes b ->
  breakMinutes a = breakMinutes b ->
  currentTime a = currentTime b.
Proof. intros Hs Hf Hb. unfold currentTime. rewrite Hs, Hf, Hb. reflexivity. Qed.

(** A render in which a duration changed leaves the countdown idle at
    the duration of the current kind of session. *)
Lemma render_changed_duration (prev next : App Countdown.Hook) :
  (focusMinutes prev =? focusMinutes next)
  && (breakMinutes prev =? breakMinutes next) = false ->
  let cd := countdown (render prev next) in
  Countdown.totalSeconds cd = fst (currentTime next) * 60 + snd (currentTime next)
  /\ Countdown.isRunning cd = false
  /\ Countdown.isPaused cd = false
  /\ Countdown.isEnded cd = false.
Proof.
  intros H. cbv zeta. unfold render.
  set (hooks := mkApp (focusMinutes next) (breakMinutes next)
                  (Pomodoro.commit (pomodoro next))
                  (cd_commit (countdownOptions next) (countdown prev)
                     (countdown next)) (console next)).
  destruct (updateConfigEffect_frame prev hooks) as [Hs [Hf [Hb _]]].
  assert (Hct : currentTime (updateConfigEffect prev hooks) = currentTime next).
  { apply currentTime_frame; [rewrite Hs | rewrite Hf | rewrite Hb]; reflexivity. }
  rewrite <- Hct. apply sessionEffect_runs.
  rewrite Hf, Hb. cbn [hooks focusMinutes breakMinutes].
  rewrite <- andb_assoc, H. apply andb_false_r.
Qed.

(** C8, as the code has it: a settings event that changes [focusMinutes]
    or [breakMinutes] resets the countdown at once, whatever its phase:
    it is left [Idle] with the (new) duration of the current kind of
    session as its remaining time; the kind of session does not change. *)
Theorem config_change_resets_countdown
  (app : App Countdown.Hook) (ev : Event Countdown.Hook)
  (Hch : changesConfig ev app = true) :
  let app' := step ev app in
  Countdown.phase (countdown app') = Countdown.Idle
  /\ Countdown.totalSeconds (countdown app') = fst (currentTime app') * 60
  /\ currentSession app' = currentSession app
  /\ match ev with
     | FocusMinutesChange m => focusMinutes app' = m
     | BreakMinutesChange m => breakMinutes app' = m
     | FromCountdown _ => True
     end.
Proof.
  cbv zeta. unfold step, commit.
  set (next := handle ev app).
  assert (Hdeps : (focusMinutes app =? focusMinutes next)
                  && (breakMinutes app =? breakMinutes next) = false
                  /\ currentSession next = currentSession app
                  /\ snd (currentTime next) = 0).
  { destruct ev as [m|m|f]; simpl in Hch; [| |discriminate];
      apply negb_true_iff in Hch; rewrite Z.eqb_sym in Hch;
      subst next; cbn [handle focusMinutes breakMinutes]; rewrite Hch.
    - repeat split. unfold currentTime. destruct (currentSession _); reflexivity.
    - rewrite andb_false_r. repeat split.
      unfold currentTime. destruct (currentSession _); reflexivity. }
  destruct Hdeps as [Hd [Hsess Hsnd]].
  destruct (render_changed_duration app next Hd) as [Ht [Hr [Hp He]]].
  destruct (render_frame app next) as [Hs1 [Hf1 Hb1]].
  destruct (render_frame next (render app next)) as [Hs2 [Hf2 Hb2]].
  destruct (render_same_deps next (render app next)) as [Ht2 [Hr2 [Hp2 He2]]];
    [now rewrite Hs1 | now rewrite Hf1 | now rewrite Hb1 |].
  assert (Hct : currentTime (render next (render app next)) = currentTime next).
  { apply currentTime_frame; congruence. }
  split; [|split; [|split]].
  - apply phase_Idle. rewrite Hr2, Hp2, He2. auto.
  - rewrite Ht2, Ht, Hct, Hsnd. lia.
  - rewrite Hs2, Hs1. exact Hsess.
  - destruct ev as [m|m|f]; [rewrite Hf2, Hf1 | rewrite Hb2, Hb1 | exact I];
      reflexivity.
Qed.

Lemma config_change_resets_countdown_witness :
  let app := run [startEvent; tickEvent; tickEvent] (init None None) in
  let app' := step (FocusMinutesChange 30) app in
  changesConfig (FocusMinutesChange 30) app = true
  /\ Countdown.phase (countdown app) = Countdown.Running
  /\ Countdown.phase (countdown app') = Countdown.Idle
  /\ Countdown.totalSeconds (countdown app') = fst (currentTime app') * 60.
Proof.
  cbv zeta. split; [vm_compute; reflexivity|].
  split; [vm_compute; reflexivity|].
  assert (Hch : changesConfig (FocusMinutesChange 30)
                  (run [startEvent; tickEvent; tickEvent] (init None None))
                = true) by (vm_compute; reflexivity).
  destruct (config_change_resets_countdown
              (run [startEvent; tickEvent; tickEvent] (init None None))
              (FocusMinutesChange 30) Hch) as [H1 [H2 _]].
  exact (conj H1 H2).
Defined.

(** C8 as worded fails: a countdown running in a focus session with 1498
    seconds left is reset to [Idle] by a change of [focusMinutes] (to the
    new 1800 seconds) and also by a change of [breakMinutes] (to 1500
    seconds). *)
Lemma config_change_counterexample :
  let app := run [startEvent; tickEvent; tickEvent] (init None None) in
  let viaFocus := step (FocusMinutesChange 30) app in
  let viaBreak := step (BreakMinutesChange 10) app in
  (Countdown.phase (countdown app) = Countdown.Running
   /\ Countdown.totalSeconds (countdown app) = 1498)
  /\ (Countdown.phase (countdown viaFocus) = Countdown.Idle
      /\ Countdown.totalSeconds (countdown viaFocus) = 1800)
  /\ (Countdown.phase (countdown viaBreak) = Countdown.Idle
      /\ Countdown.totalSeconds (countdown viaBreak) = 1500)
  /\ Countdown.phase (countdown viaFocus) <> Countdown.phase (countdown app)
  /\ Countdown.totalSeconds (countdown viaFocus)
     <> Countdown.totalSeconds (countdown app).
Proof.
  vm_compute. repeat split; intros H; discriminate H.
Qed.

End AppFacts.

Section DoneFacts.

Import App.

Lemma sessionCompletions_app (a b : list Pomodoro.Call) :
  sessionCompletions (a ++ b) = (sessionCompletions a + sessionCompletions b)%nat.
Proof.
  induction a as [|c a IH]; [reflexivity|].
  destruct c; simpl; rewrite IH; reflexivity.
Qed.

Section AnyCountdown.

Context {C : Type} {U : UseCountdown C}.

Lemma render_console (prev next : App C) :
  console (render prev next) = console next.
Proof.
  unfold render, sessionEffect, updateConfigEffect. cbn [focusMinutes breakMinutes].
  repeat match goal with
         | |- context [if ?b then _ else _] => destruct b; cbn
         end; reflexivity.
Qed.

Lemma render_callbacks (prev next : App C) :
  Pomodoro.onSessionComplete (Pomodoro.config (pomodoro next)) = true ->
  Pomodoro.onSessionComplete (Pomodoro.config (pomodoro (render prev next))) = true
  /\ Pomodoro.onSessionComplete (Pomodoro.configRef (pomodoro (render prev next)))
     = true.
Proof.
  intros H. unfold render, sessionEffect, updateConfigEffect.
  cbn [focusMinutes breakMinutes].
  repeat match goal with
         | |- context [if ?b then _ else _] => destruct b; cbn
         end; split; exact H.
Qed.

(** The completion callback of the countdown calls [onSessionComplete]
    once when the session cycle holds that callback. *)
Lemma handleSessionCompleteForCountdown_calls (app : App C) :
  Pomodoro.onSessionComplete (Pomodoro.configRef (pomodoro app)) = true ->
  let app' := handleSessionCompleteForCountdown app in
  sessionCompletions (console app') = S (sessionCompletions (console app))
  /\ Pomodoro.config (pomodoro app') = Pomodoro.config (pomodoro app)
  /\ countdown app' = countdown app.
Proof.
  intros H. cbv zeta. unfold handleSessionCompleteForCountdown.
  destruct (currentSession app); simpl;
    unfold Pomodoro.callSessionComplete, Pomodoro.callCycleComplete;
    rewrite H, !sessionCompletions_app; simpl;
    try destruct (Pomodoro.onCycleComplete _); simpl;
    repeat split; lia.
Qed.

End AnyCountdown.

Lemma reset_onCompleteRef (opts : Countdown.UseCountdownOptions)
  (svc : TimerCountdown.Service) (h : TimerCountdown.Hook) :
  TimerCountdown.onCompleteRef (fst (TimerCountdown.reset opts svc h)) =
  TimerCountdown.onCompleteRef h.
Proof.
  unfold TimerCountdown.reset, TimerCountdown.tryCatch, TimerCountdown.bind,
    TimerCountdown.invoke.
  destruct (svc TimerCountdown.stop_timer); reflexivity.
Qed.

Lemma setTime_onCompleteRef (m s : Z)
  (svc : TimerCountdown.Service) (h : TimerCountdown.Hook) :
  TimerCountdown.onCompleteRef (fst (TimerCountdown.setTime m s svc h)) =
  TimerCountdown.onCompleteRef h.
Proof.
  unfold TimerCountdown.setTime, TimerCountdown.tryCatch, TimerCountdown.bind,
    TimerCountdown.invoke.
  destruct (svc TimerCountdown.stop_timer); reflexivity.
Qed.

(** After a render the countdown holds the callback App passes to it. *)
Lemma render_onCompleteRef (svc : TimerCountdown.Service)
  (prev next : App TimerCountdown.Hook) :
  TimerCountdown.onCompleteRef
    (countdown (@render _ (serviceCountdown svc) prev next)) = true.
Proof.
  unfold render, sessionEffect, updateConfigEffect.
  cbn [focusMinutes breakMinutes].
  repeat match goal with
         | |- context [if ?b then _ else _] => destruct b; cbn
         end;
    rewrite ?setTime_onCompleteRef, ?reset_onCompleteRef; reflexivity.
Qed.

(** One [timer://done] notification: [onSessionComplete] is called once
    more, and the callbacks stay in place. *)
Lemma done_calls_once (svc : TimerCountdown.Service)
  (app : App TimerCountdown.Hook) :
  wired app ->
  let app' := @step _ (serviceCountdown svc) (serviceDone svc) app in
  wired app'
  /\ sessionCompletions (console app') = S (sessionCompletions (console app)).
Proof.
  intros (Hcd & Hcfg & Href). cbv zeta. unfold step, commit.
  set (next := handle (serviceDone svc) app).
  assert (Hnext : sessionCompletions (console next)
                  = S (sessionCompletions (console app))
                  /\ Pomodoro.onSessionComplete
                       (Pomodoro.config (pomodoro next)) = true).
  { subst next. unfold handle, serviceDone, TimerCountdown.onDone.
    unfold TimerCountdown.bind, TimerCountdown.setCurrentTotalSeconds,
      TimerCountdown.setIsRunning, TimerCountdown.setIsEnded,
      TimerCountdown.update, TimerCountdown.callOnComplete.
    cbn. rewrite Hcd. cbn [fold_left deliver].
    match goal with
    | |- context [handleSessionCompleteForCountdown ?a] =>
        destruct (handleSessionCompleteForCountdown_calls a Href)
          as [Hn [Hc _]]
    end.
    split; [exact Hn | rewrite Hc; exact Hcfg]. }
  destruct Hnext as [Hn Hc].
  split.
  - split; [apply render_onCompleteRef|].
    apply render_callbacks.
    apply (render_callbacks app next Hc).
  - rewrite !render_console. exact Hn.
Qed.

Lemma deliverDone_wired (svcs : list TimerCountdown.Service) :
  forall app, wired app ->
    wired (deliverDone svcs app)
    /\ sessionCompletions (console (deliverDone svcs app)) =
       (sessionCompletions (console app) + length svcs)%nat.
Proof.
  induction svcs as [|svc rest IH]; intros app Hw.
  - split; [exact Hw | simpl; lia].
  - cbn [deliverDone length].
    destruct (done_calls_once svc app Hw) as [Hw' Hn].
    destruct (IH _ Hw') as [Hw'' Hn'].
    split; [exact Hw''|]. rewrite Hn', Hn. lia.
Qed.

(** C2, as the code has it: every [timer://done] notification that is
    delivered calls [onSessionComplete] once; nothing tells notifications
    of one run apart, so [n] notifications give [n] calls. *)
Theorem each_done_calls_onSessionComplete
  (svcs : list TimerCountdown.Service) (app : App TimerCountdown.Hook)
  (Hw : wired app) :
  sessionCompletions (console (deliverDone svcs app)) =
  (sessionCompletions (console app) + length svcs)%nat.
Proof. exact (proj2 (deliverDone_wired svcs app Hw)). Qed.

Lemma each_done_calls_onSessionComplete_witness :
  let started :=
    @step _ (serviceCountdown TimerCountdown.serviceOk)
      (serviceStart TimerCountdown.serviceOk)
      (@init _ (serviceCountdown TimerCountdown.serviceOk) None None) in
  wired started
  /\ sessionCompletions
       (console (deliverDone [TimerCountdown.serviceOk; TimerCountdown.serviceOk]
                   started)) =
     (sessionCompletions (console started) + 2)%nat.
Proof.
  cbv zeta.
  assert (Hw : wired
                 (@step _ (serviceCountdown TimerCountdown.serviceOk)
                    (serviceStart TimerCountdown.serviceOk)
                    (@init _ (serviceCountdown TimerCountdown.serviceOk)
                       None None)))
    by (vm_compute; repeat split).
  split; [exact Hw|].
  apply (each_done_calls_onSessionComplete
           [TimerCountdown.serviceOk; TimerCountdown.serviceOk] _ Hw).
Defined.

(** C2 as worded fails: after one [start], two [timer://done]
    notifications call [onSessionComplete] twice, once with [focus] and
    once with [break]; the second one is not discarded and completes a
    cycle. *)
Lemma duplicate_done_counterexample :
  let started :=
    @step _ (serviceCountdown TimerCountdown.serviceOk)
      (serviceStart TimerCountdown.serviceOk)
      (@init _ (serviceCountdown TimerCountdown.serviceOk) None None) in
  let twice :=
    deliverDone [TimerCountdown.serviceOk; TimerCountdown.serviceOk] started in
  console started = []
  /\ console twice =
     [Pomodoro.OnSessionComplete Pomodoro.focus;
      Pomodoro.OnSessionComplete Pomodoro.break;
      Pomodoro.OnCycleComplete]
  /\ sessionCompletions (console twice) = 2%nat
  /\ sessionCompletions (console twice) <> 1%nat
  /\ Pomodoro.state (pomodoro twice) = Pomodoro.mkState Pomodoro.focus 1 1 false.
Proof.
  vm_compute. repeat split. intros H; discriminate H.
Qed.

End DoneFacts.

(* ================================================================== *)
(** * The session cycle over sequences of operations *)
(* ================================================================== *)

Section PomodoroRunFacts.

Import Pomodoro PomodoroEvents.

Lemma pomodoro_step_committed (ev : Event) (h : Hook) :
  committed (fst (step ev h)).
Proof.
  unfold step. destruct (handle ev h) as [h' calls]. split; reflexivity.
Qed.

Lemma pomodoro_run_cons (ev : Event) (evs : list Event) (h : Hook) :
  run (ev :: evs) h =
  (fst (run evs (fst (step ev h))),
   snd (step ev h) ++ snd (run evs (fst (step ev h)))).
Proof.
  simpl. destruct (step ev h) as [h1 c1]. simpl.
  destruct (run evs h1) as [h2 c2]. reflexivity.
Qed.

(** The state after one event, from a hook whose mirror is up to date. *)
Lemma pomodoro_step_state (ev : Event) (h : Hook) :
  committed h ->
  state (fst (step ev h)) =
  let s := state h in
  match ev with
  | StartSession => mkState (currentSession s) (sessionCount s) (totalCycles s) true
  | PauseSession | StopSession =>
      mkState (currentSession s) (sessionCount s) (totalCycles s) false
  | ResetSession => initialState
  | SwitchToBreak => mkState break (sessionCount s) (totalCycles s) false
  | SwitchToFocus => mkState focus (sessionCount s + 1) (totalCycles s) false
  | UpdateConfig _ => s
  | SessionComplete focus => mkState break (sessionCount s) (totalCycles s) false
  | SessionComplete break =>
      mkState focus (sessionCount s + 1) (totalCycles s + 1) false
  end.
Proof.
  intros [Hs _]. unfold step.
  destruct ev as [| | | | | | p | []]; simpl; rewrite ?Hs; reflexivity.
Qed.

(** X1: after every sequence of operations of the hook from its initial
    state, 0 <= totalCycles <= sessionCount. *)
Theorem totalCycles_le_sessionCount (cfg : PomodoroConfig) (evs : list Event) :
  let s := state (fst (run evs (usePomodoro cfg))) in
  0 <= totalCycles s <= sessionCount s.
Proof.
  cbv zeta.
  assert (H : forall h, committed h ->
                0 <= totalCycles (state h) <= sessionCount (state h) ->
                0 <= totalCycles (state (fst (run evs h)))
                  <= sessionCount (state (fst (run evs h)))).
  { induction evs as [|ev evs IH]; intros h Hc Hb; [exact Hb|].
    rewrite pomodoro_run_cons. cbn [fst].
    apply IH; [apply pomodoro_step_committed|].
    rewrite (pomodoro_step_state ev h Hc). cbv zeta.
    destruct ev as [| | | | | | p | []]; simpl; lia. }
  apply H; [apply usePomodoro_committed | simpl; lia].
Qed.

(** X2: without a reset, and with every operation followed by its
    re-render, the counters count events: totalCycles grows by the number
    of completed breaks, sessionCount by that number plus the number of
    manual switches to focus. *)
Theorem counters_count_events (h : Hook) (evs : list Event)
  (Hc : committed h) (Hn : noReset evs = true) :
  let s := state (fst (run evs h)) in
  totalCycles s = totalCycles (state h) + breakCompletions evs
  /\ sessionCount s =
     sessionCount (state h) + breakCompletions evs + focusSwitches evs.
Proof.
  cbv zeta. revert h Hc Hn.
  induction evs as [|ev evs IH]; intros h Hc Hn.
  - simpl. lia.
  - rewrite pomodoro_run_cons. cbn [fst].
    assert (Hn' : noReset evs = true).
    { destruct ev as [| | | | | | p | []]; simpl in Hn; congruence. }
    destruct (IH (fst (step ev h)) (pomodoro_step_committed ev h) Hn')
      as [Ht Hs].
    rewrite Ht, Hs, (pomodoro_step_state ev h Hc). cbv zeta.
    destruct ev as [| | | | | | p | []];
      cbn [breakCompletions focusSwitches totalCycles sessionCount initialState];
      try discriminate; lia.
Qed.

Lemma counters_count_events_witness :
  let h := usePomodoro (mkConfig 25 5 true true) in
  let evs := [SessionComplete focus; SessionComplete break; SwitchToBreak;
              SwitchToFocus] in
  let s := state (fst (run evs h)) in
  committed h /\ noReset evs = true
  /\ totalCycles s = totalCycles (state h) + 1
  /\ sessionCount s = sessionCount (state h) + 1 + 1.
Proof.
  cbv zeta. split; [split; reflexivity|]. split; [reflexivity|].
  exact (counters_count_events (usePomodoro (mkConfig 25 5 true true))
           [SessionComplete focus; SessionComplete break; SwitchToBreak;
            SwitchToFocus] (conj eq_refl eq_refl) eq_refl).
Defined.

End PomodoroRunFacts.

Section PomodoroCallFacts.

Import Pomodoro PomodoroEvents.

Lemma pomodoro_step_config (ev : Event) (h : Hook) :
  config (fst (step ev h)) =
  match ev with
  | UpdateConfig p =>
      mkConfig (merge (focusMinutes (config h)) (p_focusMinutes p))
               (merge (breakMinutes (config h)) (p_breakMinutes p))
               (merge (onSessionComplete (config h)) (p_onSessionComplete p))
               (merge (onCycleComplete (config h)) (p_onCycleComplete p))
  | _ => config h
  end.
Proof. destruct ev as [| | | | | | p | []]; reflexivity. Qed.

(** X3: with both callbacks supplied and never replaced, the calls the
    hook makes over a sequence of operations are, in order, one
    [onSessionComplete focus] per completed focus and
    [onSessionComplete break] followed by [onCycleComplete] per completed
    break; no other operation calls anything. *)
Theorem calls_follow_completions (h : Hook) (evs : list Event)
  (Hc : committed h)
  (Hs : onSessionComplete (config h) = true)
  (Hy : onCycleComplete (config h) = true)
  (Hk : keepsCallbacks evs = true) :
  snd (run evs h) = expectedCalls evs.
Proof.
  revert h Hc Hs Hy Hk.
  induction evs as [|ev evs IH]; intros h Hc Hs Hy Hk; [reflexivity|].
  rewrite pomodoro_run_cons. cbn [snd].
  assert (Hk' : keepsCallbacks evs = true).
  { destruct ev as [| | | | | | p | []]; simpl in Hk; try exact Hk.
    destruct (p_onSessionComplete p), (p_onCycleComplete p);
      try discriminate; exact Hk. }
  rewrite IH;
    [ | apply pomodoro_step_committed
      | rewrite pomodoro_step_config
      | rewrite pomodoro_step_config
      | exact Hk' ].
  - destruct Hc as [_ Hr]. unfold step.
    destruct ev as [| | | | | | p | []]; try reflexivity; simpl;
      unfold callSessionComplete, callCycleComplete;
      rewrite Hr, Hs, ?Hy; reflexivity.
  - destruct ev as [| | | | | | p | []]; try exact Hs.
    simpl in Hk. destruct (p_onSessionComplete p); [discriminate|exact Hs].
  - destruct ev as [| | | | | | p | []]; try exact Hy.
    simpl in Hk.
    destruct (p_onSessionComplete p), (p_onCycleComplete p);
      try discriminate; exact Hy.
Qed.

Lemma calls_follow_completions_witness :
  let h := usePomodoro (mkConfig 25 5 true true) in
  let evs := [StartSession; SessionComplete focus;
              UpdateConfig (mkPartial (Some 30) None None None);
              SessionComplete break] in
  snd (run evs h) =
  [OnSessionComplete focus; OnSessionComplete break; OnCycleComplete].
Proof.
  exact (calls_follow_completions (usePomodoro (mkConfig 25 5 true true))
           [StartSession; SessionComplete focus;
            UpdateConfig (mkPartial (Some 30) None None None);
            SessionComplete break]
           (conj eq_refl eq_refl) eq_refl eq_refl eq_refl).
Defined.

Lemma batch_stateRef (evs : list Event) (h : Hook) :
  stateRef (fst (batch evs h)) = stateRef h.
Proof.
  revert h. induction evs as [|ev evs IH]; intros h; [reflexivity|].
  simpl. destruct (handle ev h) as [h1 c1] eqn:Hh.
  specialize (IH h1). destruct (batch evs h1) as [h2 c2]. simpl in *.
  rewrite IH.
  destruct ev as [| | | | | | p | []]; simpl in Hh; inversion Hh; reflexivity.
Qed.

Lemma batch_app (evs1 evs2 : list Event) (h : Hook) :
  fst (batch (evs1 ++ evs2) h) = fst (batch evs2 (fst (batch evs1 h))).
Proof.
  revert h. induction evs1 as [|ev evs1 IH]; intros h; [reflexivity|].
  simpl. destruct (handle ev h) as [h1 c1].
  specialize (IH h1).
  destruct (batch (evs1 ++ evs2) h1) as [h2 c2].
  destruct (batch evs1 h1) as [h3 c3]. simpl in *. exact IH.
Qed.

(** X4: within one render pass [handleSessionComplete] writes a state
    built from the mirror of the last render, so whatever the callbacks
    called before it in the same pass had queued (a manual switch, a
    reset, an earlier completion) is overwritten. *)
Theorem completion_overwrites_pending_updates
  (evs : list Event) (session : PomodoroSession) (h : Hook) :
  state (fst (batch (evs ++ [SessionComplete session]) h)) =
  state (fst (handleSessionComplete session h)).
Proof.
  rewrite batch_app. cbn [batch handle].
  destruct (handleSessionComplete session (fst (batch evs h))) as [h1 c1] eqn:H1.
  cbn [fst].
  change h1 with (fst (h1, c1)). rewrite <- H1.
  rewrite !handleSessionComplete_state, batch_stateRef. reflexivity.
Qed.

(** X5: two [updateConfig] calls merge like one call with the second
    argument spread over the first; the session state is not touched,
    and fields absent from both keep their value. *)
Theorem updateConfig_composes (p1 p2 : PartialConfig) (h : Hook) :
  updateConfig p2 (updateConfig p1 h) = updateConfig (override p1 p2) h
  /\ state (updateConfig p1 h) = state h
  /\ (p_onSessionComplete p1 = None ->
      onSessionComplete (config (updateConfig p1 h)) = onSessionComplete (config h))
  /\ (p_onCycleComplete p1 = None ->
      onCycleComplete (config (updateConfig p1 h)) = onCycleComplete (config h)).
Proof.
  split; [|split; [reflexivity|split]].
  - destruct p1 as [a1 b1 c1 d1], p2 as [a2 b2 c2 d2].
    unfold updateConfig, setConfig, override, merge. simpl.
    destruct a1, a2, b1, b2, c1, c2, d1, d2; reflexivity.
  - intros H. simpl. rewrite H. reflexivity.
  - intros H. simpl. rewrite H. reflexivity.
Qed.

Lemma updateConfig_composes_witness :
  let h := usePomodoro (mkConfig 25 5 true true) in
  let p1 := mkPartial (Some 30) (Some 10) None None in
  let p2 := mkPartial (Some 45) None None None in
  config (updateConfig p2 (updateConfig p1 h)) = mkConfig 45 10 true true
  /\ onSessionComplete (config (updateConfig p1 h)) = onSessionComplete (config h).
Proof.
  cbv zeta.
  destruct (updateConfig_composes (mkPartial (Some 30) (Some 10) None None)
              (mkPartial (Some 45) None None None)
              (usePomodoro (mkConfig 25 5 true true))) as [H1 [_ [H3 _]]].
  split; [rewrite H1; reflexivity | exact (H3 eq_refl)].
Defined.

End PomodoroCallFacts.

(* ================================================================== *)
(** * The local countdown over sequences of events *)
(* ================================================================== *)

Section CountdownRunFacts.

Import Countdown CountdownEvents.

Lemma countdown_run_app (opts : UseCountdownOptions) (evs1 evs2 : list Event)
  (h : Hook) :
  run opts (evs1 ++ evs2) h =
  (fst (run opts evs2 (fst (run opts evs1 h))),
   snd (run opts evs1 h) ++ snd (run opts evs2 (fst (run opts evs1 h)))).
Proof.
  revert h. induction evs1 as [|ev evs1 IH]; intros h.
  - simpl. destruct (run opts evs2 h); reflexivity.
  - simpl. destruct (step opts ev h) as [h1 c1].
    rewrite IH. destruct (run opts evs1 h1) as [h2 c2]. simpl.
    rewrite app_assoc. reflexivity.
Qed.

(** While time is left, [k] ticks of a running countdown take [k]
    seconds off and call nothing. *)
Lemma run_ticks_positive (opts : UseCountdownOptions) (k : nat) :
  forall h, committed opts h -> isRunning h = true -> isPaused h = false ->
    Z.of_nat k <= totalSeconds h ->
    run opts (repeat Tick k) h =
    (setTotalSeconds (totalSeconds h - Z.of_nat k) h, []).
Proof.
  induction k as [|k IH]; intros h Hc Hr Hp Hk.
  - simpl. rewrite Z.sub_0_r. destruct h; reflexivity.
  - cbn [repeat run].
    rewrite (step_tick_positive opts h Hc Hr Hp) by lia.
    rewrite IH.
    + simpl. f_equal. unfold setTotalSeconds. simpl. f_equal. lia.
    + destruct Hc as [Hi Ho]. split; [exact Hi | exact Ho].
    + exact Hr.
    + exact Hp.
    + simpl. lia.
Qed.

(** X6: with every firing of the interval rendered before the next
    one, a countdown started with [n] seconds left reaches 0 after [n]
    ticks, still running and with no call made; the tick after that ends
    the run: one call of the callback when one was supplied (none
    otherwise), phase [Ended], and later ticks do nothing. *)
Theorem countdown_completes_at_tick_after_zero
  (opts : UseCountdownOptions) (h : Hook) (n extra : nat)
  (Hc : committed opts h) (He : isEnded h = false)
  (Ht : totalSeconds h = Z.of_nat n) :
  let started := fst (step opts Start h) in
  run opts (repeat Tick n) started = (setTotalSeconds 0 started, [])
  /\ phase (setTotalSeconds 0 started) = Running
  /\ run opts (repeat Tick (S n)) started = completed opts
  /\ runTicks (S n + extra) opts started = completed opts.
Proof.
  cbv zeta.
  pose proof (countdown_step_committed opts Start h Hc) as Hc'.
  set (started := fst (step opts Start h)) in *.
  assert (Hs : totalSeconds started = Z.of_nat n /\ isRunning started = true
               /\ isPaused started = false).
  { unfold started.
    destruct (step_flags opts Start h) as [Ht' [Hr' [Hp' _]]].
    rewrite Ht', Hr', Hp'. cbn [handle fst]. unfold start. rewrite He.
    repeat split. exact Ht. }
  destruct Hs as [Ht' [Hr' Hp']].
  assert (Hn : run opts (repeat Tick n) started = (setTotalSeconds 0 started, [])).
  { rewrite (run_ticks_positive opts n started Hc' Hr' Hp') by lia.
    rewrite Ht', Z.sub_diag. reflexivity. }
  split; [exact Hn|].
  split; [unfold phase, setTotalSeconds; cbn [isRunning]; rewrite Hr'; reflexivity|].
  split.
  - replace (S n) with (n + 1)%nat by lia.
    rewrite repeat_app, countdown_run_app, Hn. cbn [fst snd repeat run app].
    rewrite (step_tick_zero opts (setTotalSeconds 0 started)).
    + cbn [fst snd app]. rewrite app_nil_r. reflexivity.
    + destruct Hc' as [Hi Ho]. split; [exact Hi | exact Ho].
    + exact Hr'.
    + exact Hp'.
    + reflexivity.
  - apply runTicks_completes; assumption.
Qed.

Lemma countdown_completes_at_tick_after_zero_witness :
  let opts := mkOptions 0 2 true in
  let started := fst (step opts Start (useCountdown opts)) in
  run opts [Tick; Tick] started = (setTotalSeconds 0 started, [])
  /\ run opts [Tick; Tick; Tick] started = completed opts.
Proof.
  cbv zeta.
  destruct (countdown_completes_at_tick_after_zero (mkOptions 0 2 true)
              (useCountdown (mkOptions 0 2 true)) 2 0
              (conj eq_refl eq_refl) eq_refl eq_refl) as [H1 [_ [H2 _]]].
  exact (conj H1 H2).
Defined.

(** X7: a running countdown whose remaining time is 0 or negative ends
    at its first tick, which also sets the remaining time to 0. *)
Theorem nonpositive_countdown_ends_at_first_tick
  (opts : UseCountdownOptions) (h : Hook)
  (Hc : committed opts h) (Hr : isRunning h = true) (Hp : isPaused h = false)
  (Ht : totalSeconds h <= 0) :
  step opts Tick h = completed opts.
Proof.
  destruct Hc as [Hi Ho].
  destruct h as [t r p e i o]; simpl in *; subst.
  unfold step, handle, tick, intervalCallback; simpl.
  destruct (Z.gtb_spec t 0) as [Hgt|_]; [lia | reflexivity].
Qed.

Lemma nonpositive_countdown_ends_at_first_tick_witness :
  let opts := mkOptions 25 0 true in
  let h := fst (run opts [SetTime (-1) 0; Start] (useCountdown opts)) in
  totalSeconds h = -60
  /\ step opts Tick h = completed opts.
Proof.
  cbv zeta. split; [reflexivity|].
  apply nonpositive_countdown_ends_at_first_tick.
  - split; reflexivity.
  - reflexivity.
  - reflexivity.
  - simpl. lia.
Defined.

(** Without an interval a tick event is no event at all. *)
Lemma ticks_without_interval
  (opts : UseCountdownOptions) (h : Hook) (k : nat) :
  committed opts h -> intervalRef h = false ->
  run opts (repeat Tick k) h = (h, []).
Proof.
  intros Hc Hi.
  assert (Hstep : step opts Tick h = (h, [])).
  { destruct Hc as [_ Ho].
    destruct h as [t r p e i o]; simpl in *; subst.
    unfold step, handle, tick, commit, countdownEffect; simpl.
    rewrite !Bool.eqb_reflx. reflexivity. }
  induction k as [|k IH]; [reflexivity|].
  cbn [repeat run]. rewrite Hstep, IH. reflexivity.
Qed.

(** X8: ticks reach only a running countdown: in every other phase
    (idle, paused, ended) any number of elapsed seconds changes nothing
    and calls nothing. *)
Theorem ticks_inert_unless_running
  (opts : UseCountdownOptions) (h : Hook) (k : nat)
  (Hc : committed opts h) (Hph : phase h <> Running) :
  run opts (repeat Tick k) h = (h, [])
  /\ runTicks k opts h = (h, []).
Proof.
  assert (Hi : intervalRef h = false).
  { destruct Hc as [Hi _]. rewrite Hi. unfold phase in Hph.
    destruct (isRunning h); [congruence | reflexivity]. }
  split; [apply ticks_without_interval; assumption
         | apply runTicks_stopped, Hi].
Qed.

Lemma ticks_inert_unless_running_witness :
  let opts := mkOptions 0 3 true in
  let h := fst (run opts [Start; Tick; Pause] (useCountdown opts)) in
  phase h = Paused
  /\ run opts (repeat Tick 5) h = (h, []).
Proof.
  cbv zeta. split; [reflexivity|].
  apply (ticks_inert_unless_running (mkOptions 0 3 true)).
  - split; reflexivity.
  - intros H; discriminate H.
Defined.

End CountdownRunFacts.

Section CountdownMoreFacts.

Import Countdown CountdownEvents.


End CountdownMoreFacts.

Section CountdownCountingFacts.

Import Countdown CountdownEvents.


(** One event makes at most one call, and only by using up a run that
    a [Start] opened. *)
Lemma step_budget (opts : UseCountdownOptions) (ev : Event) (h : Hook) :
  committed opts h ->
  (length (snd (step opts ev h)) + running01 (fst (step opts ev h))
   <= starts [ev] + running01 h)%nat.
Proof.
  intros [Hi Ho].
  destruct h as [t r p e i o]; simpl in *; subst.
  destruct ev; unfold step, running01; simpl;
    try (destruct r, p, e; simpl; lia).
  unfold tick, intervalCallback. simpl.
  destruct r, p; simpl; try lia.
  destruct (t >? 0); simpl; [lia|].
  unfold callOnComplete. simpl. destruct (onComplete opts); simpl; lia.
Qed.

Lemma run_budget (opts : UseCountdownOptions) (evs : list Event) :
  forall h, committed opts h ->
    (length (snd (run opts evs h)) <= starts evs + running01 h)%nat.
Proof.
  induction evs as [|ev evs IH]; intros h Hc.
  - simpl. lia.
  - change (ev :: evs) with ([ev] ++ evs).
    rewrite countdown_run_app. cbn [snd].
    assert (Hone : run opts [ev] h =
                   (fst (step opts ev h), snd (step opts ev h))).
    { simpl. destruct (step opts ev h) as [h1 c1]. simpl.
      rewrite app_nil_r. reflexivity. }
    rewrite Hone. cbn [fst snd].
    rewrite length_app.
    pose proof (step_budget opts ev h Hc) as Hb.
    pose proof (IH _ (countdown_step_committed opts ev h Hc)) as Hr.
    assert (Hs : starts ([ev] ++ evs) = (starts [ev] + starts evs)%nat).
    { destruct ev; reflexivity. }
    rewrite Hs. lia.
Qed.

(** X10: over every sequence of events from the initial state, each
    event (each firing of the interval too) being rendered before the
    next one, the completion callback is called at most as many times as
    [start] was called. *)
Theorem completions_at_most_starts
  (opts : UseCountdownOptions) (evs : list Event) :
  (length (snd (run opts evs (useCountdown opts))) <= starts evs)%nat.
Proof.
  pose proof (run_budget opts evs (useCountdown opts)
                (useCountdown_committed opts)) as H.
  unfold running01 in H. simpl in H. lia.
Qed.

(** X11: for a remaining time that is not negative, the [minutes] and
    [seconds] the hook returns split it exactly, with seconds in [0,59],
    and giving them back to [setTime] restores the remaining time. *)
Theorem minutes_seconds_split (h h' : Hook) (Ht : 0 <= totalSeconds h) :
  minutes h * 60 + seconds h = totalSeconds h
  /\ 0 <= seconds h <= 59
  /\ 0 <= minutes h
  /\ totalSeconds (setTime (minutes h) (seconds h) h') = totalSeconds h.
Proof.
  unfold minutes, seconds. rewrite Z.rem_mod_nonneg by lia.
  pose proof (Z.div_mod (totalSeconds h) 60 ltac:(lia)) as Hdm.
  pose proof (Z.mod_pos_bound (totalSeconds h) 60 ltac:(lia)) as Hb.
  pose proof (Z.div_pos (totalSeconds h) 60 Ht ltac:(lia)) as Hd.
  repeat split; try lia. simpl. lia.
Qed.

Lemma minutes_seconds_split_witness :
  let opts := mkOptions 1 30 false in
  let h := fst (run opts [Start; Tick] (useCountdown opts)) in
  minutes h = 1 /\ seconds h = 29
  /\ totalSeconds (setTime (minutes h) (seconds h) (useCountdown opts)) = 89.
Proof.
  cbv zeta.
  destruct (minutes_seconds_split
              (fst (run (mkOptions 1 30 false) [Start; Tick]
                        (useCountdown (mkOptions 1 30 false))))
              (useCountdown (mkOptions 1 30 false))
              ltac:(simpl; lia)) as [_ [_ [_ H]]].
  exact (conj eq_refl (conj eq_refl H)).
Defined.

End CountdownCountingFacts.

(* ================================================================== *)
(** * The countdown over the timer service: notifications and resync *)
(* ================================================================== *)

Section TimerServiceFacts.

Import Countdown (UseCountdownOptions, mkOptions, initialTotalSeconds,
  OnComplete, Idle, Running, Paused, Ended).
Import TimerCountdown.

Lemma ceilSeconds_bounds (ms : Z) :
  1000 * (ceilSeconds ms - 1) < ms <= 1000 * ceilSeconds ms.
Proof.
  unfold ceilSeconds.
  pose proof (Z.div_mod (- ms) 1000 ltac:(lia)) as Hdm.
  pose proof (Z.mod_pos_bound (- ms) 1000 ltac:(lia)) as Hb.
  lia.
Qed.

(** X12: the seconds shown for a tick are the milliseconds rounded up:
    [1000*(s-1) < ms <= 1000*s]; so 0 is shown only when no whole
    millisecond is left, and a tick that reports the [totalMs] that
    [start] sent shows the seconds the countdown started from. *)
Theorem tick_shows_seconds_rounded_up (ms : Z) (svc : Service) (h : Hook) :
  let h' := fst (onTick ms svc h) in
  1000 * (totalSeconds h' - 1) < ms <= 1000 * totalSeconds h'
  /\ (0 < ms -> 1 <= totalSeconds h')
  /\ (totalSeconds h' = 0 <-> -1000 < ms <= 0)
  /\ totalSeconds (fst (onTick (totalSeconds h * 1000) svc h)) = totalSeconds h
  /\ snd (onTick ms svc h) = []
  /\ phase h' = phase h.
Proof.
  cbv zeta. unfold onTick, setCurrentTotalSeconds, update, totalSeconds, phase.
  cbn [fst snd currentTotalSeconds isRunning isPaused isEnded].
  pose proof (ceilSeconds_bounds ms) as Hb.
  pose proof (ceilSeconds_bounds (currentTotalSeconds h * 1000)) as Hb'.
  repeat split; try lia.
Qed.

Lemma tick_shows_seconds_rounded_up_witness :
  let h := useCountdown (mkOptions 0 3 true) in
  1 <= totalSeconds (fst (onTick 1 serviceOk h))
  /\ totalSeconds (fst (onTick 1 serviceOk h)) = 1
  /\ totalSeconds (fst (onTick 2001 serviceOk h)) = 3.
Proof.
  cbv zeta.
  destruct (tick_shows_seconds_rounded_up 1 serviceOk
              (useCountdown (mkOptions 0 3 true))) as [_ [H _]].
  exact (conj (H eq_refl) (conj eq_refl eq_refl)).
Defined.

(** What [syncTimerState] does for each answer of the service. *)
Lemma syncTimerState_cases (svc : Service) (h : Hook) :
  syncTimerState svc h =
  match svc get_timer_remaining with
  | Rejected => (h, [])
  | Resolved None =>
      if isRunning h && negb (isPaused h)
      then (mkHook false (isPaused h) true (currentTotalSeconds h)
                   (onCompleteRef h), [])
      else (h, [])
  | Resolved (Some ms) =>
      if (ceilSeconds ms =? 0) && (isRunning h || isPaused h)
      then (mkHook false false true (ceilSeconds ms) (onCompleteRef h),
            if onCompleteRef h then [OnComplete] else [])
      else (mkHook (isRunning h) (isPaused h) (isEnded h) (ceilSeconds ms)
                   (onCompleteRef h), [])
  end.
Proof.
  unfold syncTimerState, tryCatch, bind, invoke.
  destruct (svc get_timer_remaining) as [[ms|]|]; [| |reflexivity].
  - cbn. destruct (Z.gtb_spec (ceilSeconds ms) 0) as [Hgt|Hle].
    + destruct (Z.eqb_spec (ceilSeconds ms) 0) as [He|_]; [lia|].
      reflexivity.
    + destruct (ceilSeconds ms =? 0); [|reflexivity].
      destruct (isRunning h || isPaused h); reflexivity.
  - destruct (isRunning h && negb (isPaused h)); reflexivity.
Qed.

(** X13: a second resynchronisation made from the render that follows
    the first one, against the same answer of the service, changes
    nothing and calls nothing. *)
Theorem syncTimerState_idempotent (svc : Service) (h : Hook) :
  syncTimerState svc (fst (syncTimerState svc h)) =
  (fst (syncTimerState svc h), []).
Proof.
  rewrite (syncTimerState_cases svc h).
  destruct (svc get_timer_remaining) as [[ms|]|] eqn:Hsvc.
  - destruct ((ceilSeconds ms =? 0) && (isRunning h || isPaused h)) eqn:Hc;
      cbn [fst]; rewrite syncTimerState_cases, Hsvc; cbn.
    + rewrite andb_false_r. reflexivity.
    + rewrite Hc. reflexivity.
  - destruct (isRunning h && negb (isPaused h)) eqn:Hc;
      cbn [fst]; rewrite syncTimerState_cases, Hsvc; cbn.
    + reflexivity.
    + rewrite Hc. destruct h; reflexivity.
  - cbn [fst]. rewrite syncTimerState_cases, Hsvc. reflexivity.
Qed.

(** X14: resynchronising calls the completion callback exactly when the
    service reports a timer with no whole millisecond left
    ([-1000 < ms <= 0]), the countdown is running or paused, and a
    callback is held; it then calls it once and leaves the countdown
    ended at 0.  In every other case it calls nothing. *)
Theorem syncTimerState_completes_iff (svc : Service) (h : Hook) :
  (snd (syncTimerState svc h) = [OnComplete] \/ snd (syncTimerState svc h) = [])
  /\ (snd (syncTimerState svc h) = [OnComplete] <->
      (exists ms, svc get_timer_remaining = Resolved (Some ms)
                  /\ -1000 < ms <= 0)
      /\ isRunning h || isPaused h = true
      /\ onCompleteRef h = true)
  /\ (snd (syncTimerState svc h) = [OnComplete] ->
      phase (fst (syncTimerState svc h)) = Ended
      /\ totalSeconds (fst (syncTimerState svc h)) = 0).
Proof.
  rewrite (syncTimerState_cases svc h).
  assert (Hnil : forall (x : Hook) (P : Prop),
             ~ P ->
             (snd (x, @nil Countdown.Call) = [OnComplete]
              \/ snd (x, @nil Countdown.Call) = [])
             /\ (snd (x, @nil Countdown.Call) = [OnComplete] <-> P)
             /\ (snd (x, @nil Countdown.Call) = [OnComplete] ->
                 phase (fst (x, @nil Countdown.Call)) = Ended
                 /\ totalSeconds (fst (x, @nil Countdown.Call)) = 0)).
  { intros x P HP. cbn [snd].
    split; [right; reflexivity|].
    split; [split; [discriminate | intros H; destruct (HP H)] | discriminate]. }
  destruct (svc get_timer_remaining) as [[ms|]|] eqn:Hsvc.
  - pose proof (ceilSeconds_bounds ms) as Hb.
    destruct (Z.eqb_spec (ceilSeconds ms) 0) as [Hz|Hnz];
      [destruct (isRunning h || isPaused h) eqn:Hrp;
       [destruct (onCompleteRef h) eqn:Ho|]|]; cbn [andb].
    + cbn [fst snd]. split; [left; reflexivity|]. split; [split|].
      * intros _. split; [exists ms; split; [reflexivity|lia]|].
        split; reflexivity.
      * intros _. reflexivity.
      * intros _. split; [reflexivity|exact Hz].
    + apply Hnil. intros [_ [_ H]]. discriminate.
    + apply Hnil. intros [_ [H _]]. discriminate.
    + apply Hnil. intros [[ms' [Hms' Hr]] _].
      inversion Hms'; subst. lia.
  - destruct (isRunning h && negb (isPaused h));
      apply Hnil; intros [[ms' [Hms' _]] _]; discriminate.
  - apply Hnil. intros [[ms' [Hms' _]] _]; discriminate.
Qed.

(** X15: when the service reports no timer, a countdown that is running
    and not paused is ended without the completion callback being
    called, and keeps its remaining time; in any other state, and when
    the call is rejected, nothing changes. *)
Theorem syncTimerState_without_timer (svc : Service) (h : Hook)
  (Hnone : svc get_timer_remaining = Resolved None
           \/ svc get_timer_remaining = Rejected) :
  snd (syncTimerState svc h) = []
  /\ totalSeconds (fst (syncTimerState svc h)) = totalSeconds h
  /\ (svc get_timer_remaining = Resolved None ->
      isRunning h = true -> isPaused h = false ->
      phase (fst (syncTimerState svc h)) = Ended)
  /\ (svc get_timer_remaining = Rejected
      \/ isRunning h = false \/ isPaused h = true ->
      fst (syncTimerState svc h) = h).
Proof.
  rewrite (syncTimerState_cases svc h).
  destruct Hnone as [Hn|Hn]; rewrite Hn.
  - destruct (isRunning h) eqn:Hr, (isPaused h) eqn:Hp; cbn;
      repeat split; try reflexivity; try discriminate;
      intros [H|[H|H]]; discriminate.
  - cbn. repeat split; discriminate.
Qed.

Lemma syncTimerState_without_timer_witness :
  let opts := mkOptions 25 0 true in
  let h := fst (start opts serviceOk (useCountdown opts)) in
  snd (syncTimerState serviceOk h) = []
  /\ phase (fst (syncTimerState serviceOk h)) = Ended
  /\ totalSeconds (fst (syncTimerState serviceOk h)) = 1500.
Proof.
  cbv zeta.
  destruct (syncTimerState_without_timer serviceOk
              (fst (start (mkOptions 25 0 true) serviceOk
                      (useCountdown (mkOptions 25 0 true))))
              (or_introl eq_refl)) as [H1 [H2 [H3 _]]].
  exact (conj H1 (conj (H3 eq_refl eq_refl eq_refl) H2)).
Defined.

End TimerServiceFacts.

Section TimerOperationFacts.

Import Countdown (UseCountdownOptions, mkOptions, initialTotalSeconds,
  OnComplete, Idle, Running, Paused, Ended).
Import TimerCountdown.

(** The five operations never call the completion callback. *)
Lemma perform_calls_nothing
  (opts : UseCountdownOptions) (op : Operation) (svc : Service) (h : Hook) :
  snd (perform opts op svc h) = [].
Proof.
  destruct op; simpl;
    unfold start, pause, stop, reset, setTime, tryCatch, bind, invoke.
  - destruct (isEnded h); [|destruct (isPaused h)]; cbn;
      match goal with |- context [svc ?c] => destruct (svc c) end; reflexivity.
  - destruct (svc pause_timer); reflexivity.
  - destruct (svc stop_timer); reflexivity.
  - destruct (svc stop_timer); reflexivity.
  - destruct (svc stop_timer); reflexivity.
Qed.

(** X16: each operation consults the service with one command only
    ([resume_timer] for [start] when paused, [start_timer] with the
    milliseconds to run otherwise, [pause_timer] for [pause],
    [stop_timer] for [stop], [reset] and [setTime]): its result depends
    on the answer to that command alone, and no operation calls the
    completion callback. *)
Theorem perform_depends_on_one_command
  (opts : UseCountdownOptions) (op : Operation) (svc svc' : Service) (h : Hook)
  (Hsame : (svc (commandOf opts op h) = Rejected
            <-> svc' (commandOf opts op h) = Rejected)) :
  perform opts op svc h = perform opts op svc' h
  /\ snd (perform opts op svc h) = [].
Proof.
  split; [|apply perform_calls_nothing].
  destruct op; simpl in *;
    unfold start, pause, stop, reset, setTime, tryCatch, bind, invoke.
  - destruct (isEnded h); [|destruct (isPaused h)]; cbn;
      match goal with
      | |- context [svc ?c] =>
          destruct (svc c) eqn:H1; destruct (svc' c) eqn:H2
      end; try reflexivity;
      solve [ destruct Hsame as [Ha Hb]; try (specialize (Ha eq_refl));
              try (specialize (Hb eq_refl)); discriminate ].
  - destruct (svc pause_timer) eqn:H1; destruct (svc' pause_timer) eqn:H2;
      try reflexivity;
      solve [ destruct Hsame as [Ha Hb]; try (specialize (Ha eq_refl));
              try (specialize (Hb eq_refl)); discriminate ].
  - destruct (svc stop_timer) eqn:H1; destruct (svc' stop_timer) eqn:H2;
      try reflexivity;
      solve [ destruct Hsame as [Ha Hb]; try (specialize (Ha eq_refl));
              try (specialize (Hb eq_refl)); discriminate ].
  - destruct (svc stop_timer) eqn:H1; destruct (svc' stop_timer) eqn:H2;
      try reflexivity;
      solve [ destruct Hsame as [Ha Hb]; try (specialize (Ha eq_refl));
              try (specialize (Hb eq_refl)); discriminate ].
  - destruct (svc stop_timer) eqn:H1; destruct (svc' stop_timer) eqn:H2;
      try reflexivity;
      solve [ destruct Hsame as [Ha Hb]; try (specialize (Ha eq_refl));
              try (specialize (Hb eq_refl)); discriminate ].
Qed.

Lemma perform_depends_on_one_command_witness :
  let opts := mkOptions 25 0 true in
  let paused := fst (pause serviceOk (fst (start opts serviceOk (useCountdown opts)))) in
  let onlyResume : Service :=
    fun c => match c with resume_timer => Resolved None | _ => Rejected end in
  commandOf opts OpStart paused = resume_timer
  /\ perform opts OpStart onlyResume paused = perform opts OpStart serviceOk paused.
Proof.
  cbv zeta. split; [reflexivity|].
  apply perform_depends_on_one_command.
  split; intros H; discriminate H.
Defined.

Lemma perform_rejected_retains_witness :
  let opts := mkOptions 25 0 true in
  let h := fst (start opts serviceOk (useCountdown opts)) in
  serviceDown (commandOf opts OpPause h) = Rejected
  /\ perform opts OpPause serviceDown h = (h, []).
Proof.
  cbv zeta. split; [reflexivity|].
  apply perform_rejected_retains; [reflexivity | intros H; discriminate H].
Defined.

(** X18: when the service accepts the calls, pausing a running countdown
    and starting it again gives back the state before the pause; the
    second call is [resume_timer], so nothing restarts and the remaining
    time is kept. *)
Theorem service_pause_start_resumes
  (opts : UseCountdownOptions) (svc : Service) (h : Hook)
  (Hr : isRunning h = true) (Hp : isPaused h = false) (He : isEnded h = false)
  (Hpause : svc pause_timer <> Rejected)
  (Hresume : svc resume_timer <> Rejected) :
  let paused := fst (pause svc h) in
  (phase paused = Paused /\ totalSeconds paused = totalSeconds h)
  /\ commandOf opts OpStart paused = resume_timer
  /\ fst (start opts svc paused) = h.
Proof.
  cbv zeta. unfold pause, start, tryCatch, bind, invoke.
  destruct (svc pause_timer) eqn:H1; [|congruence].
  cbn. rewrite He. cbn.
  destruct (svc resume_timer) eqn:H2; [|congruence].
  cbn. destruct h as [r p e t o]; simpl in *; subst.
  repeat split.
Qed.

Lemma service_pause_start_resumes_witness :
  let opts := mkOptions 25 0 true in
  let h := fst (onTick 88000 serviceOk
                  (fst (start opts serviceOk (useCountdown opts)))) in
  totalSeconds h = 88
  /\ fst (start opts serviceOk (fst (pause serviceOk h))) = h.
Proof.
  cbv zeta. split; [reflexivity|].
  apply (service_pause_start_resumes (mkOptions 25 0 true) serviceOk);
    try reflexivity; intros H; discriminate H.
Defined.

End TimerOperationFacts.

(* ================================================================== *)
(** * The App over sequences of user events *)
(* ================================================================== *)

Section AppRunFacts.

Import App AppEvents.

(** A render whose dependencies did not change runs the effects of the
    two hooks only. *)
Lemma render_unchanged_deps (prev next : App Countdown.Hook) :
  currentSession prev = currentSession next ->
  focusMinutes prev = focusMinutes next ->
  breakMinutes prev = breakMinutes next ->
  render prev next =
  mkApp (focusMinutes next) (breakMinutes next)
        (Pomodoro.commit (pomodoro next))
        (Countdown.commit (countdownOptions next) (countdown prev)
           (countdown next))
        (console next).
Proof.
  intros Hs Hf Hb. unfold render, sessionEffect, updateConfigEffect.
  cbn [focusMinutes breakMinutes].
  rewrite Hf, Hb, !Z.eqb_refl. cbn [andb].
  unfold currentSession in *. cbn [pomodoro Pomodoro.commit Pomodoro.state].
  rewrite Hs, session_eqb_refl. cbn [andb]. reflexivity.
Qed.

Lemma pomodoro_commit_id (p : Pomodoro.Hook) :
  Pomodoro.committed p -> Pomodoro.commit p = p.
Proof.
  intros [Hs Hc]. destruct p as [cfg st cfgR stR]. simpl in *. subst.
  reflexivity.
Qed.

Lemma countdown_commit_id (opts : Countdown.UseCountdownOptions)
  (prev cd : Countdown.Hook) :
  Countdown.isRunning prev = Countdown.isRunning cd ->
  Countdown.isPaused prev = Countdown.isPaused cd ->
  Countdown.onCompleteRef cd = Countdown.onComplete opts ->
  Countdown.commit opts prev cd = cd.
Proof.
  intros Hr Hp Ho. unfold Countdown.commit, Countdown.countdownEffect.
  rewrite Hr, Hp, !Bool.eqb_reflx. cbn [andb].
  destruct cd as [t r p e i o]. simpl in *. subst. reflexivity.
Qed.

Lemma countdown_commit_twice (opts : Countdown.UseCountdownOptions)
  (prev cd : Countdown.Hook) :
  Countdown.commit opts cd (Countdown.commit opts prev cd) =
  Countdown.commit opts prev cd.
Proof.
  destruct (countdown_commit_keeps opts prev cd) as [_ [Hr [Hp _]]].
  apply countdown_commit_id; [now rewrite Hr | now rewrite Hp |].
  reflexivity.
Qed.

(** A countdown callback that calls nothing leaves everything but the
    countdown as it is. *)
Lemma step_quiet (app : App Countdown.Hook)
  (g : Countdown.UseCountdownOptions -> Countdown.Hook
       -> Countdown.Hook * list Countdown.Call)
  (cd' : Countdown.Hook) :
  Pomodoro.committed (pomodoro app) ->
  g (countdownOptions app) (countdown app) = (cd', []) ->
  step (FromCountdown g) app =
  withCountdown
    (Countdown.commit (countdownOptions app) (countdown app) cd') app.
Proof.
  intros Hs Hg. unfold step, handle. rewrite Hg. cbn [fold_left].
  unfold commit.
  rewrite (render_unchanged_deps app) by reflexivity.
  rewrite render_unchanged_deps by reflexivity.
  cbn [focusMinutes breakMinutes pomodoro countdown console].
  rewrite (pomodoro_commit_id _ Hs), (pomodoro_commit_id _ Hs).
  unfold withCountdown. f_equal.
  apply countdown_commit_twice.
Qed.

(** A render in which only the session changed: the session effect
    resets the countdown. *)
Lemma render_changed_session (prev next : App Countdown.Hook) :
  Pomodoro.session_eqb (currentSession prev) (currentSession next) = false ->
  focusMinutes prev = focusMinutes next ->
  breakMinutes prev = breakMinutes next ->
  render prev next =
  mkApp (focusMinutes next) (breakMinutes next)
        (Pomodoro.commit (pomodoro next))
        (Countdown.setTime (fst (currentTime next)) (snd (currentTime next))
           (Countdown.reset (countdownOptions next)
              (Countdown.commit (countdownOptions next) (countdown prev)
                 (countdown next))))
        (console next).
Proof.
  intros Hs Hf Hb. unfold render, updateConfigEffect.
  cbn [focusMinutes breakMinutes].
  rewrite Hf, Hb, !Z.eqb_refl. cbn [andb].
  unfold sessionEffect.
  change (currentSession
            (mkApp (focusMinutes next) (breakMinutes next)
               (Pomodoro.commit (pomodoro next))
               (cd_commit (countdownOptions next) (countdown prev)
                  (countdown next)) (console next)))
    with (currentSession next).
  rewrite Hs. cbn [andb]. reflexivity.
Qed.

(** A render in which a duration changed: the new durations are
    forwarded to the session cycle and the countdown is reset. *)
Lemma render_changed_settings (prev next : App Countdown.Hook) :
  (focusMinutes prev =? focusMinutes next)
  && (breakMinutes prev =? breakMinutes next) = false ->
  render prev next =
  mkApp (focusMinutes next) (breakMinutes next)
        (Pomodoro.updateConfig
           (Pomodoro.mkPartial (Some (focusMinutes next))
              (Some (breakMinutes next)) None None)
           (Pomodoro.commit (pomodoro next)))
        (Countdown.setTime (fst (currentTime next)) (snd (currentTime next))
           (Countdown.reset (countdownOptions next)
              (Countdown.commit (countdownOptions next) (countdown prev)
                 (countdown next))))
        (console next).
Proof.
  intros H. unfold render, updateConfigEffect.
  cbn [focusMinutes breakMinutes]. rewrite H.
  unfold sessionEffect. cbn [focusMinutes breakMinutes].
  rewrite <- andb_assoc, H, andb_false_r. reflexivity.
Qed.

Lemma setTime_reset_idle (opts : Countdown.UseCountdownOptions) (m : Z)
  (cd : Countdown.Hook) :
  Countdown.setTime m 0 (Countdown.reset opts cd) =
  Countdown.mkHook (m * 60 + 0) false false false
    (Countdown.intervalRef cd) (Countdown.onCompleteRef cd).
Proof. reflexivity. Qed.

Lemma currentTime_snd (app : App Countdown.Hook) : snd (currentTime app) = 0.
Proof. unfold currentTime. destruct (currentSession app); reflexivity. Qed.

Lemma completing_tick (opts : Countdown.UseCountdownOptions)
  (cd : Countdown.Hook) :
  Countdown.committed opts cd ->
  Countdown.onComplete opts = true ->
  Countdown.isRunning cd = true -> Countdown.isPaused cd = false ->
  Countdown.totalSeconds cd <= 0 ->
  Countdown.tick cd =
  (Countdown.mkHook 0 false false true false true, [Countdown.OnComplete]).
Proof.
  intros [Hi Ho] Hcb Hr Hp Ht.
  destruct cd as [t r p e i o]; simpl in *; subst.
  rewrite Hcb in *.
  unfold Countdown.tick, Countdown.intervalCallback; simpl.
  destruct (Z.gtb_spec t 0) as [Hgt|_]; [lia | reflexivity].
Qed.

(** The tick that ends a run, seen from the App: the session cycle
    moves on and the countdown is reset to the next duration. *)
Lemma step_completing_tick (app : App Countdown.Hook) :
  settled app ->
  Countdown.isRunning (countdown app) = true ->
  Countdown.isPaused (countdown app) = false ->
  Countdown.totalSeconds (countdown app) <= 0 ->
  step tickEvent app = afterCompletion app.
Proof.
  intros (Hp & Hc & _ & _) Hr Hpa Ht.
  unfold step, handle, tickEvent.
  rewrite (completing_tick (countdownOptions app) (countdown app)
             Hc eq_refl Hr Hpa Ht).
  cbn [fold_left deliver]. unfold handleSessionCompleteForCountdown.
  cbn [pomodoro focusMinutes breakMinutes countdown console].
  change (currentSession
            (mkApp (focusMinutes app) (breakMinutes app) (pomodoro app)
               (Countdown.mkHook 0 false false true false true)
               (console app)))
    with (currentSession app).
  unfold afterCompletion.
  pose proof (handleSessionComplete_state (currentSession app) (pomodoro app))
    as Hst.
  destruct (Pomodoro.handleSessionComplete (currentSession app) (pomodoro app))
    as [p' calls].
  cbn [fst snd] in *.
  set (next := mkApp (focusMinutes app) (breakMinutes app) p'
                 (Countdown.mkHook 0 false false true false true)
                 (console app ++ calls)).
  assert (Hnext : currentSession next =
                  match currentSession app with
                  | Pomodoro.focus => Pomodoro.break
                  | Pomodoro.break => Pomodoro.focus
                  end).
  { unfold currentSession at 1. cbn [next pomodoro]. rewrite Hst.
    destruct (currentSession app); reflexivity. }
  assert (Hflip : Pomodoro.session_eqb (currentSession app) (currentSession next)
                  = false).
  { rewrite Hnext. destruct (currentSession app); reflexivity. }
  unfold commit.
  rewrite (render_changed_session app next Hflip eq_refl eq_refl).
  rewrite render_unchanged_deps by reflexivity.
  cbn [focusMinutes breakMinutes pomodoro countdown console next].
  f_equal.
  rewrite !currentTime_snd, !setTime_reset_idle.
  assert (Hm : fst (currentTime next) =
               match currentSession app with
               | Pomodoro.focus => breakMinutes app
               | Pomodoro.break => focusMinutes app
               end).
  { unfold currentTime. rewrite Hnext.
    destruct (currentSession app); reflexivity. }
  rewrite Hm.
  destruct (countdown app) as [t r p e i o]; simpl in Hr, Hpa; subst.
  unfold idleAt. reflexivity.
Qed.

Lemma afterCompletion_settled (app : App Countdown.Hook) :
  settled app -> settled (afterCompletion app).
Proof.
  intros (Hp & Hc & Hs & Hy). unfold settled, afterCompletion.
  cbn [pomodoro countdown].
  split; [split; reflexivity|]. split; [split; reflexivity|].
  destruct (currentSession app); cbn; split; assumption.
Qed.

Lemma afterCompletion_session (app : App Countdown.Hook) :
  currentSession (afterCompletion app) =
  match currentSession app with
  | Pomodoro.focus => Pomodoro.break
  | Pomodoro.break => Pomodoro.focus
  end.
Proof.
  unfold afterCompletion, currentSession at 1. cbn [pomodoro].
  destruct (currentSession app); reflexivity.
Qed.

Lemma afterCompletion_withCountdown (cd : Countdown.Hook)
  (app : App Countdown.Hook) :
  afterCompletion (withCountdown cd app) = afterCompletion app.
Proof. reflexivity. Qed.

Lemma withCountdown_settled (cd : Countdown.Hook) (app : App Countdown.Hook) :
  settled app ->
  Countdown.committed (countdownOptions app) cd ->
  settled (withCountdown cd app).
Proof.
  intros (Hp & _ & Hs & Hy) Hc. unfold settled, withCountdown.
  cbn [pomodoro countdown]. repeat split; try assumption; apply Hp || apply Hc.
Qed.

(** The countdown events that call nothing, seen from the App. *)
Lemma step_countdown_event (app : App Countdown.Hook) (ev : Countdown.Event)
  (g : Countdown.UseCountdownOptions -> Countdown.Hook
       -> Countdown.Hook * list Countdown.Call) :
  settled app ->
  (forall opts h, g opts h = Countdown.handle opts ev h) ->
  snd (Countdown.handle (countdownOptions app) ev (countdown app)) = [] ->
  step (FromCountdown g) app =
  withCountdown
    (fst (Countdown.step (countdownOptions app) ev (countdown app))) app.
Proof.
  intros Hs Hg Hnil.
  rewrite (step_quiet app g
             (fst (Countdown.handle (countdownOptions app) ev (countdown app)))).
  - unfold Countdown.step.
    destruct (Countdown.handle (countdownOptions app) ev (countdown app));
      reflexivity.
  - apply Hs.
  - rewrite Hg.
    destruct (Countdown.handle (countdownOptions app) ev (countdown app));
      simpl in *; subst; reflexivity.
Qed.

Lemma run_app (evs1 evs2 : list (Event Countdown.Hook))
  (app : App Countdown.Hook) :
  run (evs1 ++ evs2) app = run evs2 (run evs1 app).
Proof. unfold run. apply fold_left_app. Qed.

(** While time is left, [k] seconds take [k] off the countdown of the
    App and change nothing else. *)
Lemma run_seconds_positive (k : nat) :
  forall app : App Countdown.Hook,
    settled app ->
    Countdown.isRunning (countdown app) = true ->
    Countdown.isPaused (countdown app) = false ->
    Z.of_nat k <= Countdown.totalSeconds (countdown app) ->
    userRun (repeat SecondElapsed k) app =
    withCountdown
      (Countdown.setTotalSeconds
         (Countdown.totalSeconds (countdown app) - Z.of_nat k) (countdown app))
      app.
Proof.
  induction k as [|k IH]; intros app Hs Hr Hp Hk.
  - unfold userRun, withCountdown. simpl. rewrite Z.sub_0_r.
    destruct app as [f b pm [t r p e i o] con]; reflexivity.
  - unfold userRun in *. cbn [repeat map run fold_left toEvent].
    change (fold_left (fun a ev => step ev a)
              (map toEvent (repeat SecondElapsed k)) (step tickEvent app))
      with (run (map toEvent (repeat SecondElapsed k)) (step tickEvent app)).
    assert (Hstep : step tickEvent app =
                    withCountdown
                      (Countdown.setTotalSeconds
                         (Countdown.totalSeconds (countdown app) - 1)
                         (countdown app)) app).
    { destruct Hs as (Hpc & Hc & Hrest).
      pose proof (step_tick_positive (countdownOptions app) (countdown app)
                    Hc Hr Hp ltac:(lia)) as Ht.
      unfold tickEvent.
      rewrite (step_countdown_event app Countdown.Tick).
      - rewrite Ht. reflexivity.
      - split; [exact Hpc | split; [exact Hc | exact Hrest]].
      - reflexivity.
      - unfold Countdown.step in Ht.
        destruct (Countdown.handle (countdownOptions app) Countdown.Tick
                    (countdown app)) as [h' c'].
        inversion Ht. reflexivity. }
    rewrite Hstep. rewrite IH.
    + unfold withCountdown. cbn [focusMinutes breakMinutes pomodoro countdown console].
      f_equal. unfold Countdown.setTotalSeconds. simpl. f_equal. lia.
    + apply withCountdown_settled; [exact Hs|].
      destruct Hs as (_ & [Hi Ho] & _). split; [exact Hi | exact Ho].
    + exact Hr.
    + exact Hp.
    + simpl. lia.
Qed.

Lemma step_start (app : App Countdown.Hook) :
  settled app ->
  step startEvent app =
  withCountdown
    (fst (Countdown.step (countdownOptions app) Countdown.Start (countdown app)))
    app.
Proof.
  intros Hs. unfold startEvent.
  apply (step_countdown_event app Countdown.Start); [exact Hs | |]; reflexivity.
Qed.

(** X19: one whole session in the App.  From a settled App whose
    countdown is not ended and has [n] seconds left, pressing start and
    letting [n+1] seconds pass completes the session: the session cycle
    moves to the other kind of session (counting a cycle when a break
    ends), [onSessionComplete] is called once, and the countdown waits,
    idle, at the duration of the new kind of session. *)
Theorem one_session_runs_to_the_next
  (app : App Countdown.Hook) (n : nat)
  (Hs : settled app)
  (He : Countdown.isEnded (countdown app) = false)
  (Ht : Countdown.totalSeconds (countdown app) = Z.of_nat n) :
  let app' := userRun (ClickStart :: repeat SecondElapsed (S n)) app in
  app' = afterCompletion app
  /\ settled app'
  /\ currentSession app' =
     match currentSession app with
     | Pomodoro.focus => Pomodoro.break
     | Pomodoro.break => Pomodoro.focus
     end
  /\ Countdown.phase (countdown app') = Countdown.Idle
  /\ Countdown.totalSeconds (countdown app') = fst (currentTime app') * 60
  /\ sessionCompletions (console app') = S (sessionCompletions (console app))
  /\ Pomodoro.totalCycles (Pomodoro.state (pomodoro app')) =
     Pomodoro.totalCycles (Pomodoro.state (pomodoro app))
     + match currentSession app with
       | Pomodoro.focus => 0
       | Pomodoro.break => 1
       end.
Proof.
  cbv zeta.
  assert (Hrun : userRun (ClickStart :: repeat SecondElapsed (S n)) app
                 = afterCompletion app).
  { replace (S n) with (n + 1)%nat by lia.
    unfold userRun. cbn [map toEvent].
    change (startEvent :: map toEvent (repeat SecondElapsed (n + 1)))
      with ([startEvent] ++ map toEvent (repeat SecondElapsed (n + 1))).
    rewrite repeat_app, map_app, !run_app.
    change (run [startEvent] app) with (step startEvent app).
    rewrite (step_start app Hs).
    set (opts := countdownOptions app).
    set (started := fst (Countdown.step opts Countdown.Start (countdown app))).
    assert (Hc' : Countdown.committed opts started).
    { apply countdown_step_committed, Hs. }
    assert (Hf : Countdown.totalSeconds started = Z.of_nat n
                 /\ Countdown.isRunning started = true
                 /\ Countdown.isPaused started = false).
    { unfold started.
      destruct (step_flags opts Countdown.Start (countdown app))
        as [Ht' [Hr' [Hp' _]]].
      rewrite Ht', Hr', Hp'. cbn [Countdown.handle fst].
      unfold Countdown.start. rewrite He. repeat split. exact Ht. }
    destruct Hf as [Ht' [Hr' Hp']].
    assert (Hs' : settled (withCountdown started app)).
    { apply withCountdown_settled; [exact Hs | exact Hc']. }
    change (run (map toEvent (repeat SecondElapsed n)) (withCountdown started app))
      with (userRun (repeat SecondElapsed n) (withCountdown started app)).
    rewrite (run_seconds_positive n (withCountdown started app) Hs' Hr' Hp')
      by (cbn [withCountdown countdown]; lia).
    change (run (map toEvent (repeat SecondElapsed 1)) ?a)
      with (step tickEvent a).
    rewrite step_completing_tick.
    - reflexivity.
    - apply withCountdown_settled; [exact Hs'|].
      destruct Hc' as [Hi Ho]. split; [exact Hi | exact Ho].
    - exact Hr'.
    - exact Hp'.
    - cbn [withCountdown countdown Countdown.setTotalSeconds
           Countdown.totalSeconds].
      rewrite Ht', Z.sub_diag. apply Z.le_refl. }
  rewrite Hrun.
  split; [reflexivity|].
  split; [apply afterCompletion_settled, Hs|].
  split; [apply afterCompletion_session|].
  split; [reflexivity|].
  split.
  - unfold currentTime. rewrite afterCompletion_session.
    unfold afterCompletion, idleAt.
    cbn [countdown Countdown.totalSeconds focusMinutes breakMinutes].
    destruct (currentSession app); cbn [fst]; lia.
  - destruct Hs as ([Hst Hcf] & _ & Hcb & _).
    unfold afterCompletion. cbn [console pomodoro].
    rewrite sessionCompletions_app.
    destruct (currentSession app); cbn;
      unfold Pomodoro.callSessionComplete, Pomodoro.callCycleComplete;
      rewrite Hcf, Hcb, Hst; cbn;
      try destruct (Pomodoro.onCycleComplete _); cbn; split; lia.
Qed.

Lemma one_session_runs_to_the_next_witness :
  let app := run [FocusMinutesChange 0; BreakMinutesChange 1] (init None None) in
  let app' := userRun (ClickStart :: repeat SecondElapsed 1) app in
  settled app
  /\ currentSession app' =
     match currentSession app with
     | Pomodoro.focus => Pomodoro.break
     | Pomodoro.break => Pomodoro.focus
     end
  /\ Countdown.totalSeconds (countdown app') = fst (currentTime app') * 60.
Proof.
  cbv zeta.
  assert (Hs : settled (run [FocusMinutesChange 0; BreakMinutesChange 1]
                          (init None None)))
    by (vm_compute; repeat split).
  destruct (one_session_runs_to_the_next
              (run [FocusMinutesChange 0; BreakMinutesChange 1] (init None None))
              0 Hs eq_refl eq_refl) as [_ [_ [H3 [_ [H5 _]]]]].
  exact (conj Hs (conj H3 H5)).
Defined.

Lemma app_eta (app : App Countdown.Hook) :
  mkApp (focusMinutes app) (breakMinutes app) (pomodoro app) (countdown app)
        (console app) = app.
Proof. destruct app; reflexivity. Qed.

Lemma render_settled (app : App Countdown.Hook) :
  settled app -> render app app = app.
Proof.
  intros (Hp & [Hi Ho] & _).
  rewrite render_unchanged_deps by reflexivity.
  rewrite (pomodoro_commit_id _ Hp).
  rewrite countdown_commit_id by (reflexivity || exact Ho).
  apply app_eta.
Qed.

Lemma step_unchanged_setting (app : App Countdown.Hook) :
  settled app ->
  step (FocusMinutesChange (focusMinutes app)) app = app
  /\ step (BreakMinutesChange (breakMinutes app)) app = app.
Proof.
  intros Hs.
  split; unfold step; cbn [handle]; rewrite app_eta; unfold commit;
    rewrite !(render_settled app Hs); reflexivity.
Qed.

(** X20: entering the value a duration already has is no event: the
    settled App, and with it a running countdown, stays exactly as it
    is. *)
Theorem unchanged_setting_changes_nothing
  (app : App Countdown.Hook) (u : UserEvent)
  (Hs : settled app)
  (Hu : u = SetFocusMinutes (focusMinutes app)
        \/ u = SetBreakMinutes (breakMinutes app)) :
  changesConfig (toEvent u) app = false
  /\ step (toEvent u) app = app.
Proof.
  destruct (step_unchanged_setting app Hs) as [H1 H2].
  destruct Hu as [Hu|Hu]; subst u; cbn [toEvent changesConfig];
    rewrite Z.eqb_refl; (split; [reflexivity|]); assumption.
Qed.

Lemma unchanged_setting_changes_nothing_witness :
  let app := run [startEvent; tickEvent] (init None None) in
  Countdown.phase (countdown app) = Countdown.Running
  /\ step (FocusMinutesChange 25) app = app.
Proof.
  cbv zeta.
  assert (Hs : settled (run [startEvent; tickEvent] (init None None)))
    by (vm_compute; repeat split).
  split; [vm_compute; reflexivity|].
  apply (unchanged_setting_changes_nothing
           (run [startEvent; tickEvent] (init None None))
           (SetFocusMinutes 25) Hs).
  left. vm_compute. reflexivity.
Defined.

(** A settings event that changes a duration, seen from a settled App. *)
Lemma step_changed_settings (app : App Countdown.Hook)
  (ev : Event Countdown.Hook) :
  settled app ->
  changesConfig ev app = true ->
  step ev app =
  mkApp (focusMinutes (handle ev app)) (breakMinutes (handle ev app))
        (Pomodoro.commit
           (Pomodoro.updateConfig
              (Pomodoro.mkPartial (Some (focusMinutes (handle ev app)))
                 (Some (breakMinutes (handle ev app))) None None)
              (pomodoro app)))
        (idleAt (fst (currentTime (handle ev app))))
        (console app).
Proof.
  intros (Hp & [Hi Ho] & _) Hch.
  set (next := handle ev app).
  assert (Hnext : pomodoro next = pomodoro app
                  /\ countdown next = countdown app
                  /\ console next = console app
                  /\ (focusMinutes app =? focusMinutes next)
                     && (breakMinutes app =? breakMinutes next) = false).
  { destruct ev as [m|m|g]; simpl in Hch; [| |discriminate];
      apply negb_true_iff in Hch; rewrite Z.eqb_sym in Hch;
      subst next; cbn [handle pomodoro countdown console focusMinutes
                       breakMinutes]; rewrite Hch;
      repeat split; apply andb_false_r. }
  destruct Hnext as (Hpn & Hcn & Hcon & Hd).
  unfold step, commit. fold next.
  rewrite (render_changed_settings app next Hd).
  rewrite render_unchanged_deps by reflexivity.
  cbn [focusMinutes breakMinutes pomodoro countdown console].
  rewrite Hpn, Hcn, Hcon, (pomodoro_commit_id _ Hp).
  f_equal.
  rewrite !currentTime_snd, !setTime_reset_idle.
  unfold idleAt.
  destruct (countdown app) as [t r p e i o]; simpl in Hi, Ho; subst.
  destruct r, p; reflexivity.
Qed.

Lemma currentTime_nonneg (app : App Countdown.Hook) :
  0 <= focusMinutes app -> 0 <= breakMinutes app ->
  0 <= fst (currentTime app).
Proof.
  intros Hf Hb. unfold currentTime. destruct (currentSession app); exact Hf || exact Hb.
Qed.

(** The countdown events of the user that call nothing keep the bounds. *)
Lemma quiet_event_inBounds (app : App Countdown.Hook) (ev : Countdown.Event) :
  inBounds app ->
  (forall m s, ev <> Countdown.SetTime m s) ->
  ev <> Countdown.Stop ->
  snd (Countdown.handle (countdownOptions app) ev (countdown app)) = [] ->
  inBounds
    (withCountdown
       (fst (Countdown.step (countdownOptions app) ev (countdown app))) app).
Proof.
  intros (Hs & Hf & Hb & Hcf & Hcb & Hlo & Hhi) Hns Hnstop Hnil.
  pose proof (currentTime_nonneg app Hf Hb) as Hct.
  pose proof (currentTime_snd app) as Hsnd.
  split; [apply withCountdown_settled;
          [exact Hs | apply countdown_step_committed, Hs]|].
  split; [exact Hf|]. split; [exact Hb|].
  split; [exact Hcf|]. split; [exact Hcb|].
  change (currentTime (withCountdown _ app)) with (currentTime app).
  cbn [withCountdown countdown].
  destruct (step_flags (countdownOptions app) ev (countdown app)) as [Ht _].
  rewrite Ht.
  assert (Hinit : Countdown.initialTotalSeconds (countdownOptions app)
                  = fst (currentTime app) * 60).
  { unfold Countdown.initialTotalSeconds, countdownOptions.
    cbn [Countdown.initialMinutes Countdown.initialSeconds]. lia. }
  destruct ev; cbn [Countdown.handle fst].
  - unfold Countdown.start.
    destruct (Countdown.isEnded (countdown app)); simpl; lia.
  - simpl. lia.
  - congruence.
  - simpl. lia.
  - destruct (Hns minutes seconds eq_refl).
  - unfold Countdown.tick, Countdown.intervalCallback.
    destruct (Countdown.intervalRef (countdown app)); [|cbn [fst]; lia].
    destruct (Z.gtb_spec (Countdown.totalSeconds (countdown app)) 0);
      simpl; lia.
Qed.

(** A settings event that changes a duration to values that are not
    negative keeps the bounds. *)
Lemma changed_settings_inBounds (app : App Countdown.Hook)
  (ev : Event Countdown.Hook) :
  inBounds app ->
  changesConfig ev app = true ->
  0 <= focusMinutes (handle ev app) ->
  0 <= breakMinutes (handle ev app) ->
  inBounds (step ev app).
Proof.
  intros (Hs & Hf & Hb & Hcf & Hcb & Hlo & Hhi) Hch Hf' Hb'.
  rewrite (step_changed_settings app ev Hs Hch).
  set (next := handle ev app) in *.
  assert (Hsess : currentSession next = currentSession app).
  { subst next. destruct ev as [m|m|g]; [reflexivity|reflexivity|].
    simpl in Hch. discriminate. }
  destruct Hs as (Hp & Hc & Hsc & Hcc).
  unfold inBounds, settled.
  cbn [pomodoro countdown focusMinutes breakMinutes].
  split; [split; [split; reflexivity|]|].
  - split; [split; reflexivity|]. split; [exact Hsc | exact Hcc].
  - split; [exact Hf'|]. split; [exact Hb'|].
    split; [reflexivity|]. split; [reflexivity|].
    assert (Hct : forall a : App Countdown.Hook,
               currentSession a = currentSession next ->
               focusMinutes a = focusMinutes next ->
               breakMinutes a = breakMinutes next ->
               fst (currentTime a) = fst (currentTime next)).
    { intros a H1 H2 H3. unfold currentTime. rewrite H1, H2, H3. reflexivity. }
    match goal with
    | |- _ <= _ <= fst (currentTime ?a) * 60 =>
        rewrite (Hct a);
          [ | rewrite Hsess; reflexivity | reflexivity | reflexivity ]
    end.
    pose proof (currentTime_nonneg next Hf' Hb') as Hnn.
    unfold idleAt. cbn [Countdown.totalSeconds]. lia.
Qed.

(** One user event keeps the bounds. *)
Lemma user_step_inBounds (app : App Countdown.Hook) (u : UserEvent) :
  inBounds app -> nonNegativeSettings [u] ->
  inBounds (step (toEvent u) app).
Proof.
  intros Hin Hu.
  pose proof Hin as (Hs & Hf & Hb & Hcf & Hcb & Hlo & Hhi).
  destruct u as [| | | |m|m]; cbn [toEvent].
  - unfold startEvent.
    rewrite (step_countdown_event app Countdown.Start) by (exact Hs || reflexivity).
    apply quiet_event_inBounds; (exact Hin || discriminate || reflexivity).
  - unfold pauseEvent.
    rewrite (step_countdown_event app Countdown.Pause) by (exact Hs || reflexivity).
    apply quiet_event_inBounds; (exact Hin || discriminate || reflexivity).
  - unfold resetEvent.
    rewrite (step_countdown_event app Countdown.Reset) by (exact Hs || reflexivity).
    apply quiet_event_inBounds; (exact Hin || discriminate || reflexivity).
  - destruct (Countdown.intervalRef (countdown app)) eqn:Hi;
      [destruct (Z.gtb_spec (Countdown.totalSeconds (countdown app)) 0)
         as [Hgt|Hle]|].
    + assert (Hnil : snd (Countdown.handle (countdownOptions app)
                            Countdown.Tick (countdown app)) = []).
      { cbn [Countdown.handle]. unfold Countdown.tick, Countdown.intervalCallback.
        rewrite Hi. destruct (Z.gtb_spec (Countdown.totalSeconds (countdown app)) 0);
          [reflexivity | lia]. }
      unfold tickEvent.
      rewrite (step_countdown_event app Countdown.Tick) by (exact Hs || reflexivity || exact Hnil).
      apply quiet_event_inBounds; (exact Hin || discriminate || exact Hnil).
    + assert (Hrp : Countdown.isRunning (countdown app) = true
                    /\ Countdown.isPaused (countdown app) = false).
      { destruct Hs as (_ & [Hc _] & _). rewrite Hi in Hc.
        destruct (Countdown.isRunning (countdown app)),
                 (Countdown.isPaused (countdown app));
          try discriminate; split; reflexivity. }
      destruct Hrp as [Hr Hp].
      rewrite (step_completing_tick app Hs Hr Hp Hle).
      split; [apply afterCompletion_settled, Hs|].
      split; [exact Hf|]. split; [exact Hb|].
      assert (Hcfg : Pomodoro.config (pomodoro (afterCompletion app))
                     = Pomodoro.config (pomodoro app)).
      { unfold afterCompletion. cbn [pomodoro].
        destruct (currentSession app); reflexivity. }
      rewrite Hcfg.
      split; [exact Hcf|]. split; [exact Hcb|].
      unfold currentTime. rewrite afterCompletion_session.
      unfold afterCompletion, idleAt.
      cbn [countdown Countdown.totalSeconds focusMinutes breakMinutes].
      destruct (currentSession app); cbn [fst]; lia.
    + assert (Hnil : snd (Countdown.handle (countdownOptions app)
                            Countdown.Tick (countdown app)) = []).
      { cbn [Countdown.handle]. unfold Countdown.tick. rewrite Hi. reflexivity. }
      unfold tickEvent.
      rewrite (step_countdown_event app Countdown.Tick) by (exact Hs || reflexivity || exact Hnil).
      apply quiet_event_inBounds; (exact Hin || discriminate || exact Hnil).
  - destruct (Z.eqb_spec m (focusMinutes app)) as [Heq|Hne].
    + subst m. rewrite (proj1 (step_unchanged_setting app Hs)). exact Hin.
    + apply changed_settings_inBounds; [exact Hin | | |].
      * cbn [changesConfig]. apply negb_true_iff, Z.eqb_neq, Hne.
      * cbn [handle focusMinutes]. simpl in Hu. lia.
      * cbn [handle breakMinutes]. exact Hb.
  - destruct (Z.eqb_spec m (breakMinutes app)) as [Heq|Hne].
    + subst m. rewrite (proj2 (step_unchanged_setting app Hs)). exact Hin.
    + apply changed_settings_inBounds; [exact Hin | | |].
      * cbn [changesConfig]. apply negb_true_iff, Z.eqb_neq, Hne.
      * cbn [handle focusMinutes]. exact Hf.
      * cbn [handle breakMinutes]. simpl in Hu. lia.
Qed.

Lemma user_run_inBounds (us : list UserEvent) :
  forall app : App Countdown.Hook,
    inBounds app -> nonNegativeSettings us -> inBounds (userRun us app).
Proof.
  induction us as [|u us IH]; intros app Hin Hus; [exact Hin|].
  unfold userRun in *. cbn [map run fold_left].
  apply IH.
  - apply user_step_inBounds; [exact Hin|].
    destruct u; simpl in *; tauto.
  - destruct u; simpl in Hus; tauto.
Qed.

Lemma init_inBounds (storedFocus storedBreak : option Z) :
  (forall v, storedFocus = Some v -> 0 <= v) ->
  (forall v, storedBreak = Some v -> 0 <= v) ->
  inBounds (init storedFocus storedBreak).
Proof.
  intros Hf Hb.
  assert (Hf' : 0 <= match storedFocus with
                     | Some v => v | None => DEFAULT_FOCUS_MINUTES end).
  { destruct storedFocus as [v|]; [apply Hf; reflexivity|].
    unfold DEFAULT_FOCUS_MINUTES. lia. }
  assert (Hb' : 0 <= match storedBreak with
                     | Some v => v | None => DEFAULT_BREAK_MINUTES end).
  { destruct storedBreak as [v|]; [apply Hb; reflexivity|].
    unfold DEFAULT_BREAK_MINUTES. lia. }
  unfold inBounds, settled, init.
  cbn [pomodoro countdown focusMinutes breakMinutes].
  split; [repeat split|].
  split; [exact Hf'|]. split; [exact Hb'|].
  split; [reflexivity|]. split; [reflexivity|].
  unfold currentTime, currentSession. cbn.
  unfold Countdown.initialTotalSeconds. cbn. lia.
Qed.

(** X21: when no negative duration is stored or entered, after every
    sequence of clicks on start, pause and quit, changes of the two
    durations and elapsed seconds, the remaining time of the countdown
    lies between 0 and the duration of the current kind of session. *)
Theorem remaining_time_within_session
  (storedFocus storedBreak : option Z) (us : list UserEvent)
  (Hf : forall v, storedFocus = Some v -> 0 <= v)
  (Hb : forall v, storedBreak = Some v -> 0 <= v)
  (Hus : nonNegativeSettings us) :
  let app := userRun us (init storedFocus storedBreak) in
  0 <= Countdown.totalSeconds (countdown app) <= fst (currentTime app) * 60.
Proof.
  cbv zeta.
  destruct (user_run_inBounds us (init storedFocus storedBreak)
              (init_inBounds storedFocus storedBreak Hf Hb) Hus)
    as (_ & _ & _ & _ & _ & H).
  exact H.
Qed.

(** X22: under the same conditions the session cycle always holds the
    durations of the settings, both hooks have their refs up to date
    between events, and the callbacks stay in place. *)
Theorem session_cycle_mirrors_settings
  (storedFocus storedBreak : option Z) (us : list UserEvent)
  (Hf : forall v, storedFocus = Some v -> 0 <= v)
  (Hb : forall v, storedBreak = Some v -> 0 <= v)
  (Hus : nonNegativeSettings us) :
  let app := userRun us (init storedFocus storedBreak) in
  Pomodoro.focusMinutes (Pomodoro.config (pomodoro app)) = focusMinutes app
  /\ Pomodoro.breakMinutes (Pomodoro.config (pomodoro app)) = breakMinutes app
  /\ settled app.
Proof.
  cbv zeta.
  destruct (user_run_inBounds us (init storedFocus storedBreak)
              (init_inBounds storedFocus storedBreak Hf Hb) Hus)
    as (Hs & _ & _ & H1 & H2 & _).
  exact (conj H1 (conj H2 Hs)).
Qed.

End AppRunFacts.

Section ExtraWitnesses.

Import App AppEvents.

Lemma remaining_time_within_session_witness :
  let us := [ClickStart; SecondElapsed; SetFocusMinutes 1; ClickStart;
             SecondElapsed] in
  let app := userRun us (init (Some 2) None) in
  nonNegativeSettings us
  /\ 0 <= Countdown.totalSeconds (countdown app) <= fst (currentTime app) * 60.
Proof.
  cbv zeta. split; [simpl; lia|].
  apply (remaining_time_within_session (Some 2) None
           [ClickStart; SecondElapsed; SetFocusMinutes 1; ClickStart;
            SecondElapsed]).
  - intros v H. inversion H. lia.
  - intros v H. discriminate H.
  - simpl. lia.
Defined.

Lemma session_cycle_mirrors_settings_witness :
  let us := [SetBreakMinutes 10; ClickStart; SetFocusMinutes 30] in
  let app := userRun us (init None None) in
  nonNegativeSettings us
  /\ Pomodoro.focusMinutes (Pomodoro.config (pomodoro app)) = focusMinutes app
  /\ Pomodoro.breakMinutes (Pomodoro.config (pomodoro app)) = breakMinutes app
  /\ settled app.
Proof.
  cbv zeta. split; [simpl; lia|].
  apply (session_cycle_mirrors_settings None None
           [SetBreakMinutes 10; ClickStart; SetFocusMinutes 30]).
  - intros v H. discriminate H.
  - intros v H. discriminate H.
  - simpl. lia.
Defined.

Lemma syncTimerState_completes_iff_witness :
  let opts := Countdown.mkOptions 25 0 true in
  let h := fst (TimerCountdown.start opts TimerCountdown.serviceOk
                  (TimerCountdown.useCountdown opts)) in
  let svc : TimerCountdown.Service :=
    fun c => match c with
             | TimerCountdown.get_timer_remaining =>
                 TimerCountdown.Resolved (Some (-250))
             | _ => TimerCountdown.Resolved None
             end in
  snd (TimerCountdown.syncTimerState svc h) = [Countdown.OnComplete].
Proof.
  cbv zeta.
  apply (proj1 (proj2 (syncTimerState_completes_iff _ _))).
  split; [exists (-250); split; [reflexivity | lia]|].
  split; reflexivity.
Defined.

End ExtraWitnesses.

(* ================================================================== *)
(** * Firings of the interval that pile up within one pass *)
(* ================================================================== *)

Section QueuedFiringFacts.

Import Countdown CountdownEvents.

Lemma queuedFirings_add (a b : nat) (h : Hook) :
  queuedFirings (a + b) h =
  (fst (queuedFirings b (fst (queuedFirings a h))),
   snd (queuedFirings a h) ++ snd (queuedFirings b (fst (queuedFirings a h)))).
Proof.
  revert h. induction a as [|a IH]; intros h.
  - simpl. destruct (queuedFirings b h); reflexivity.
  - cbn [Nat.add queuedFirings].
    destruct (intervalCallback h) as [h1 c1].
    rewrite IH. destruct (queuedFirings a h1) as [h2 c2]. cbn [fst snd].
    rewrite app_assoc. reflexivity.
Qed.

(** While time is left the queued updaters only count down. *)
Lemma queuedFirings_positive (k : nat) :
  forall h, Z.of_nat k <= totalSeconds h ->
    queuedFirings k h = (setTotalSeconds (totalSeconds h - Z.of_nat k) h, []).
Proof.
  induction k as [|k IH]; intros h Hk.
  - simpl. rewrite Z.sub_0_r. destruct h; reflexivity.
  - cbn [queuedFirings]. unfold intervalCallback.
    destruct (Z.gtb_spec (totalSeconds h) 0) as [_|Hle]; [|lia].
    rewrite IH by (simpl; lia).
    simpl. f_equal. unfold setTotalSeconds. simpl. f_equal. lia.
Qed.

(** With no time left every queued updater takes the completing branch
    and calls the callback again. *)
Lemma queuedFirings_zero (j : nat) :
  forall h, totalSeconds h <= 0 ->
    fst (queuedFirings (S j) h) = endedPending h
    /\ length (snd (queuedFirings (S j) h)) =
       if onCompleteRef h then S j else O.
Proof.
  induction j as [|j IH]; intros h Ht.
  - cbn [queuedFirings]. unfold intervalCallback.
    destruct (Z.gtb_spec (totalSeconds h) 0) as [Hgt|_]; [lia|].
    cbn [fst snd]. split; [reflexivity|].
    unfold callOnComplete. simpl. destruct (onCompleteRef h); reflexivity.
  - change (queuedFirings (S (S j)) h)
      with (let (h1, calls1) := intervalCallback h in
            let (h2, calls2) := queuedFirings (S j) h1 in
            (h2, calls1 ++ calls2)).
    unfold intervalCallback.
    destruct (Z.gtb_spec (totalSeconds h) 0) as [Hgt|_]; [lia|].
    set (h1 := setTotalSeconds 0
                 (setIsEnded true (setIsRunning false (clearTimer h)))).
    destruct (IH h1 ltac:(simpl; lia)) as [Hst Hlen].
    destruct (queuedFirings (S j) h1) as [h2 c2]. cbn [fst snd] in *.
    split; [rewrite Hst; reflexivity|].
    rewrite length_app, Hlen. unfold callOnComplete. simpl.
    destruct (onCompleteRef h); reflexivity.
Qed.

(** X23: [k] firings of the interval processed in one pass on a running
    countdown with [t >= 1] seconds left.  When [k <= t] they take [k]
    seconds off and call nothing.  When [k > t] the countdown ends at 0
    and each of the [k - t] firings that finds 0 calls the completion
    callback: [k - t] calls, not one. *)
Theorem queued_firings_complete_repeatedly
  (opts : UseCountdownOptions) (h : Hook) (k : nat)
  (Hc : committed opts h) (Hr : isRunning h = true) (Hp : isPaused h = false)
  (Ht : 1 <= totalSeconds h) :
  (Z.of_nat k <= totalSeconds h ->
   fireBatch opts k h =
   (setTotalSeconds (totalSeconds h - Z.of_nat k) h, []))
  /\ (totalSeconds h < Z.of_nat k ->
      fst (fireBatch opts k h) = fst (completed opts)
      /\ length (snd (fireBatch opts k h)) =
         if onComplete opts
         then (k - Z.to_nat (totalSeconds h))%nat else O).
Proof.
  assert (Hi : intervalRef h = true).
  { destruct Hc as [Hi _]. rewrite Hi, Hr, Hp. reflexivity. }
  unfold fireBatch. rewrite Hi. split.
  - intros Hk. rewrite (queuedFirings_positive k h Hk).
    f_equal. destruct Hc as [_ Ho].
    destruct h as [t r p e i o]; simpl in *; subst.
    unfold commit, countdownEffect; simpl. reflexivity.
  - intros Hk.
    set (t := Z.to_nat (totalSeconds h)).
    assert (Hkt : k = (t + S (k - t - 1))%nat) by (unfold t; lia).
    assert (Htz : Z.of_nat t = totalSeconds h) by (unfold t; lia).
    assert (Hlen' : (k - t)%nat = S (k - t - 1)) by (unfold t; lia).
    rewrite Hlen'. clearbody t.
    rewrite Hkt at 1 2. rewrite queuedFirings_add.
    rewrite (queuedFirings_positive t h) by lia.
    cbn [fst snd app].
    destruct (queuedFirings_zero (k - t - 1)
                (setTotalSeconds (totalSeconds h - Z.of_nat t) h)
                ltac:(simpl; lia)) as [Hst Hlen].
    destruct (queuedFirings (S (k - t - 1))
                (setTotalSeconds (totalSeconds h - Z.of_nat t) h))
      as [h2 c2]. cbn [fst snd] in *.
    split.
    + rewrite Hst. destruct Hc as [_ Ho].
      destruct h as [t0 r p e i o]; simpl in *; subst.
      reflexivity.
    + rewrite Hlen. destruct Hc as [_ Ho]. simpl. rewrite Ho.
      reflexivity.
Qed.

Lemma queued_firings_complete_repeatedly_witness :
  let opts := mkOptions 1 30 true in
  let h := fst (step opts Start (useCountdown opts)) in
  fireBatch opts 31 h = (setTotalSeconds (totalSeconds h - 31) h, [])
  /\ length (snd (fireBatch opts 95 h)) = 5%nat.
Proof.
  cbv zeta.
  assert (Hge : 1 <= totalSeconds
                       (fst (step (mkOptions 1 30 true) Start
                               (useCountdown (mkOptions 1 30 true)))))
    by (vm_compute; intros H; discriminate H).
  destruct (queued_firings_complete_repeatedly (mkOptions 1 30 true)
              (fst (step (mkOptions 1 30 true) Start
                      (useCountdown (mkOptions 1 30 true)))) 31
              (conj eq_refl eq_refl) eq_refl eq_refl Hge)
    as [H1 _].
  destruct (queued_firings_complete_repeatedly (mkOptions 1 30 true)
              (fst (step (mkOptions 1 30 true) Start
                      (useCountdown (mkOptions 1 30 true)))) 95
              (conj eq_refl eq_refl) eq_refl eq_refl Hge)
    as [_ H2].
  split.
  - apply H1. vm_compute. intros H; discriminate H.
  - apply H2. vm_compute. reflexivity.
Defined.


End QueuedFiringFacts.

Section SamePassFacts.

Import Pomodoro.

(** C10 as worded fails: two consecutive calls of
    [handleSessionComplete break], with no re-render in between, both
    read the same mirror: from the initial state both counters are 1
    after the two calls, not 2. *)
Lemma consecutive_calls_counterexample :
  let h := usePomodoro (mkConfig 25 5 true true) in
  let once := fst (handleSessionComplete break h) in
  let twice := fst (handleSessionComplete break once) in
  (sessionCount (state h) = 0 /\ totalCycles (state h) = 0)
  /\ (sessionCount (state twice) = 1 /\ totalCycles (state twice) = 1)
  /\ sessionCount (state twice) <> sessionCount (state h) + 2
  /\ totalCycles (state twice) <> totalCycles (state h) + 2.
Proof.
  vm_compute. repeat split; intros H; discriminate H.
Qed.

End SamePassFacts.

Section InFlightFacts.

Import Countdown (OnComplete, Ended).
Import TimerCountdown.

Lemma syncTimerStateFrom_own_closure (svc : Service) (h : Hook) :
  syncTimerStateFrom h svc h = syncTimerState svc h.
Proof. reflexivity. Qed.

(** X24: two resynchronisations in flight from the same render (the
    [visibilitychange] and the [focus] handler) both test the flags of
    that render: when the service answers both with no whole millisecond
    left ([-1000 < ms <= 0]) and the countdown was running or paused,
    the completion callback is called twice. *)
Theorem syncTimerState_in_flight_completes_twice
  (svc : Service) (h : Hook) (ms : Z)
  (Hsvc : svc get_timer_remaining = Resolved (Some ms))
  (Hms : -1000 < ms <= 0)
  (Hrp : isRunning h || isPaused h = true)
  (Ho : onCompleteRef h = true) :
  snd (syncTwiceInFlight svc h) = [OnComplete; OnComplete]
  /\ phase (fst (syncTwiceInFlight svc h)) = Ended
  /\ totalSeconds (fst (syncTwiceInFlight svc h)) = 0.
Proof.
  assert (Hz : ceilSeconds ms = 0).
  { pose proof (ceilSeconds_bounds ms). lia. }
  unfold syncTwiceInFlight, syncTimerStateFrom, tryCatch, bind, invoke.
  rewrite Hsvc. cbn. rewrite Hz. cbn. rewrite Hrp. cbn.
  rewrite Ho. cbn. repeat split.
Qed.

Lemma syncTimerState_in_flight_completes_twice_witness :
  let opts := Countdown.mkOptions 25 0 true in
  let h := fst (start opts serviceOk (useCountdown opts)) in
  let svc : Service :=
    fun c => match c with
             | get_timer_remaining => Resolved (Some 0)
             | _ => Resolved None
             end in
  snd (syncTwiceInFlight svc h) = [OnComplete; OnComplete].
Proof.
  cbv zeta.
  apply (syncTimerState_in_flight_completes_twice _ _ 0);
    try reflexivity. lia.
Defined.

End InFlightFacts.
